(** * Falcon trace middleware and the integration patch contract

    A shallow embedding of [ddtrace/contrib/falcon/middleware.py] together
    with the collaborators it drives (tracer, span, integration
    configuration, hook dispatcher), and of the patch/unpatch contract
    exercised by [tests/contrib/asyncpg/test_asyncpg_patch.py].

    Python objects that the middleware shares with the tracer (spans) live
    in the tracer's state and are addressed by reference; every call the
    middleware makes on a collaborator is also appended to a chronological
    log, so that ordering properties can be stated on the log and state
    properties on the tracer. *)

From stdpp Require Import base strings list gmap.
From Stdlib Require Import Ascii String Qcanon.

Close Scope Qc_scope.
Open Scope string_scope.
Open Scope list_scope.

(** ** Python string primitives used by the middleware *)

(** [str.lower] on one character.  Header field names are ASCII tokens, so
    only the letters [A]..[Z] are affected. *)
Definition lower_ascii (c : ascii) : ascii :=
  let n := nat_of_ascii c in
  if (65 <=? n)%nat && (n <=? 90)%nat then ascii_of_nat (n + 32) else c.

(** [str.lower]. *)
Fixpoint lower (s : string) : string :=
  match s with
  | EmptyString => EmptyString
  | String c rest => String (lower_ascii c) (lower rest)
  end.

(** [s.partition(sep)] for a one-character separator: the part before the
    first occurrence of [sep], the separator, the part after it; when [sep]
    does not occur, [s] followed by two empty strings. *)
Fixpoint partition (sep : ascii) (s : string) : string * string * string :=
  match s with
  | EmptyString => (EmptyString, EmptyString, EmptyString)
  | String c rest =>
      if Ascii.eqb c sep then (EmptyString, String sep EmptyString, rest)
      else
        let '(before, found, after) := partition sep rest in
        (String c before, found, after)
  end.

(** [s.startswith(p)]. *)
Fixpoint starts_with (p s : string) : bool :=
  match p, s with
  | EmptyString, _ => true
  | String _ _, EmptyString => false
  | String a p', String b s' => Ascii.eqb a b && starts_with p' s'
  end.

(** [needle in hay] on strings. *)
Fixpoint str_contains (needle hay : string) : bool :=
  match hay with
  | EmptyString => starts_with needle EmptyString
  | String _ rest => starts_with needle hay || str_contains needle rest
  end.

(** Truth value of an object that is either [None] or a [str]. *)
Definition truthy (o : option string) : bool :=
  match o with
  | None => false
  | Some s => negb (String.eqb s "")
  end.

(** ** Python dictionaries with string keys

    A [dict] keeps its keys in insertion order, and assigning to a key that
    is already present keeps the key's position. *)
Definition pydict : Type := list (string * string).

Fixpoint dict_set (k v : string) (d : pydict) : pydict :=
  match d with
  | [] => [(k, v)]
  | (k', v') :: rest =>
      if String.eqb k' k then (k', v) :: rest else (k', v') :: dict_set k v rest
  end.

Fixpoint dict_get (k : string) (d : pydict) : option string :=
  match d with
  | [] => None
  | (k', v') :: rest => if String.eqb k' k then Some v' else dict_get k rest
  end.

(** [dict(items)]: later items overwrite earlier ones with the same key. *)
Definition dict_of_items (items : list (string * string)) : pydict :=
  foldl (fun d kv => dict_set kv.1 kv.2 d) [] items.

(** [iteritems(d)]. *)
Definition iteritems (d : pydict) : list (string * string) := d.

(** ** Data model *)

(** Python references to span and tracer objects. *)
Definition SpanRef : Type := nat.
Definition TracerRef : Type := nat.

(** The class of the in-flight exception, [sys.exc_info()[0]]; only its
    [__name__] is read. *)
Record ErrType := { err_name : string }.

(** Value of a span tag: a string, a number, or [None]. *)
Inductive TagValue :=
| TagStr (s : string)
| TagNum (q : Qc)
| TagNone.

(** The parent link of a span: none for a root span, another span of this
    process, or the upstream identifiers taken from the request headers. *)
Inductive Parent :=
| NoParent
| LocalParent (r : SpanRef)
| RemoteParent (trace_id parent_id : string).

(** Modelled from the spec: the [Span] class of the tracer is not in the
    sources.  Section 3 gives its fields: service, resource (unset until
    classified), span type, the tag mapping, the error flag with the
    captured traceback, and the finish mark. *)
Record Span := {
  span_name : string;
  span_service : string;
  span_type : string;
  span_parent : Parent;
  span_resource : option string;
  span_tags : gmap string TagValue;
  span_error : bool;
  span_traceback : option ErrType;
  span_finished : bool
}.

(** The framework's request object: the fields the middleware reads. *)
Record Request := {
  req_headers : pydict;
  req_method : string;
  req_url : string;
  req_query_string : string;
  req_root_path : option string;
  req_uri_template : string
}.

(** The framework's response object: [status] and [_headers]. *)
Record Response := {
  resp_status : string;
  resp_headers : pydict
}.

(** The matched handler object: [r.__module__] and [r.__class__.__name__]. *)
Record Resource := {
  res_module : string;
  res_class_name : string
}.

(** A registered hook callback [(span, request, response) -> None]; it acts
    by mutating the span it is given. *)
Record Hook := {
  hook_name : string;
  hook_call : Span -> Request -> Response -> Span
}.

(** Modelled from the spec: the integration configuration [config.falcon]
    is not in the sources.  It is a dictionary-like object (items such as
    ["distributed_tracing"]) carrying the integration name and the hook
    registry, an ordered sequence of callbacks per event name. *)
Record IntegrationConfig := {
  integration_name : string;
  settings : gmap string bool;
  hooks : gmap string (list Hook)
}.

(** Modelled from the spec: the tracer is not in the sources.  It keeps the
    active-span stack of the execution context (innermost span first), the
    upstream context activated from the request headers, the spans that
    were finished (oldest first) and the next fresh reference. *)
Record Tracer := {
  active : list (SpanRef * Span);
  remote_context : option (string * string);
  finished : list (SpanRef * Span);
  next_ref : SpanRef
}.

(** Keyword arguments of [trace_utils.set_http_meta]; an argument that is
    not passed is [None]. *)
Record HttpMeta := {
  hm_method : option string;
  hm_url : option string;
  hm_query : option string;
  hm_request_headers : option pydict;
  hm_status_code : option string;
  hm_response_headers : option pydict;
  hm_route : option string
}.

Definition no_http_meta : HttpMeta :=
  {| hm_method := None; hm_url := None; hm_query := None;
     hm_request_headers := None; hm_status_code := None;
     hm_response_headers := None; hm_route := None |}.

Inductive SpanDirection := INBOUND | OUTBOUND.

(** A call made by the middleware on one of its collaborators. *)
Inductive Event :=
| ev_activate_distributed_headers (t : TracerRef) (int_config : IntegrationConfig) (request_headers : pydict)
| ev_trace (t : TracerRef) (r : SpanRef) (name service type : string)
| ev_set_tag_str (r : SpanRef) (key value : string)
| ev_set_tag (r : SpanRef) (key : string) (value : TagValue)
| ev_set_resource (r : SpanRef) (resource : string)
| ev_set_traceback (r : SpanRef)
| ev_set_http_meta (r : SpanRef) (args : HttpMeta)
| ev_hook (event name : string) (r : SpanRef)
| ev_finish (r : SpanRef).

(** The state the middleware runs in: the tracer objects, the process-wide
    [config.falcon], the exception being handled by the current thread, and
    the log of collaborator calls.  Each tracer object is given a state of
    its own; the properties below follow one middleware on its tracer and
    say nothing about how tracers share an execution context. *)
Record World := {
  tracers : TracerRef -> Tracer;
  config_falcon : IntegrationConfig;
  exc_info : option ErrType;
  log : list Event
}.

(** A [TraceMiddleware] instance: the attributes stored by [__init__]. *)
Record TraceMiddleware := {
  mw_tracer : TracerRef;
  mw_service : string
}.

(** Functions imported by the middleware whose code is not in the sources. *)
Class Collaborators := {
  schematize_service_name : string -> string;
  schematize_url_operation : string -> string -> SpanDirection -> string;
  activate_distributed_headers : Tracer -> IntegrationConfig -> pydict -> Tracer;
  set_http_meta : Span -> IntegrationConfig -> HttpMeta -> Span;
  get_analytics_sample_rate : IntegrationConfig -> bool -> TagValue
}.

(** Modelled from the spec: the tag names and enumeration values imported
    from [ddtrace.ext], [ddtrace.constants] and
    [ddtrace.internal.constants] are not in the sources; no proof depends
    on their spelling. *)
Definition COMPONENT := "component".
Definition SPAN_KIND := "span.kind".
Definition SPAN_MEASURED_KEY := "_dd.measured".
Definition ANALYTICS_SAMPLE_RATE_KEY := "_dd1.sr.eausr".
Definition STATUS_CODE := "http.status_code".
Definition SpanKind_SERVER := "server".
Definition SpanTypes_WEB := "web".

(** ** State passing

    The middleware's methods run in a state monad over [World]. *)
Definition M (A : Type) : Type := World -> A * World.

#[export] Instance M_ret : MRet M := fun A (x : A) (w : World) => (x, w).
#[export] Instance M_bind : MBind M :=
  fun A B (f : A -> M B) (m : M A) (w : World) =>
    let '(x, w') := m w in f x w'.

(** Final state and result of a computation. *)
Definition exec {A} (m : M A) (w : World) : World := (m w).2.
Definition eval {A} (m : M A) (w : World) : A := (m w).1.

Definition get_tracer (t : TracerRef) : M Tracer :=
  fun w => (tracers w t, w).

Definition put_tracer (t : TracerRef) (tr : Tracer) : M unit :=
  fun w =>
    (tt, {| tracers := fun i => if Nat.eqb i t then tr else tracers w i;
            config_falcon := config_falcon w;
            exc_info := exc_info w;
            log := log w |}).

Definition get_config : M IntegrationConfig :=
  fun w => (config_falcon w, w).

Definition put_config (c : IntegrationConfig) : M unit :=
  fun w =>
    (tt, {| tracers := tracers w; config_falcon := c;
            exc_info := exc_info w; log := log w |}).

(** [sys.exc_info()[0]]. *)
Definition sys_exc_info_0 : M (option ErrType) :=
  fun w => (exc_info w, w).

Definition set_exc_info (e : option ErrType) : M unit :=
  fun w =>
    (tt, {| tracers := tracers w; config_falcon := config_falcon w;
            exc_info := e; log := log w |}).

Definition record (e : Event) : M unit :=
  fun w =>
    (tt, {| tracers := tracers w; config_falcon := config_falcon w;
            exc_info := exc_info w; log := log w ++ [e] |}).

(** ** The span stack of a tracer *)

Fixpoint update_entry (r : SpanRef) (f : Span -> Span) (l : list (SpanRef * Span))
  : list (SpanRef * Span) :=
  match l with
  | [] => []
  | (r', s) :: rest =>
      if Nat.eqb r' r then (r', f s) :: rest else (r', s) :: update_entry r f rest
  end.

Fixpoint lookup_entry (r : SpanRef) (l : list (SpanRef * Span)) : option Span :=
  match l with
  | [] => None
  | (r', s) :: rest => if Nat.eqb r' r then Some s else lookup_entry r rest
  end.

Fixpoint remove_entry (r : SpanRef) (l : list (SpanRef * Span)) : list (SpanRef * Span) :=
  match l with
  | [] => []
  | (r', s) :: rest => if Nat.eqb r' r then rest else (r', s) :: remove_entry r rest
  end.

Definition mark_finished (s : Span) : Span :=
  {| span_name := span_name s; span_service := span_service s;
     span_type := span_type s; span_parent := span_parent s;
     span_resource := span_resource s; span_tags := span_tags s;
     span_error := span_error s; span_traceback := span_traceback s;
     span_finished := true |}.

Definition with_resource (res : string) (s : Span) : Span :=
  {| span_name := span_name s; span_service := span_service s;
     span_type := span_type s; span_parent := span_parent s;
     span_resource := Some res; span_tags := span_tags s;
     span_error := span_error s; span_traceback := span_traceback s;
     span_finished := span_finished s |}.

Definition with_tag (k : string) (v : TagValue) (s : Span) : Span :=
  {| span_name := span_name s; span_service := span_service s;
     span_type := span_type s; span_parent := span_parent s;
     span_resource := span_resource s; span_tags := <[k := v]> (span_tags s);
     span_error := span_error s; span_traceback := span_traceback s;
     span_finished := span_finished s |}.

Definition with_traceback (e : option ErrType) (s : Span) : Span :=
  {| span_name := span_name s; span_service := span_service s;
     span_type := span_type s; span_parent := span_parent s;
     span_resource := span_resource s; span_tags := span_tags s;
     span_error := true; span_traceback := e;
     span_finished := span_finished s |}.

Definition new_span (name service type : string) (parent : Parent) : Span :=
  {| span_name := name; span_service := service; span_type := type;
     span_parent := parent; span_resource := None; span_tags := ∅;
     span_error := false; span_traceback := None; span_finished := false |}.

(** Modelled from the spec: [tracer.current_span()], the innermost active
    span of the execution context, or [None]. *)
Definition current_span (t : TracerRef) : M (option SpanRef) :=
  tr ← get_tracer t;
  mret (fst <$> head (active tr)).

Definition parent_of (tr : Tracer) : Parent :=
  match head (active tr), remote_context tr with
  | Some (r, _), _ => LocalParent r
  | None, Some (trace_id, parent_id) => RemoteParent trace_id parent_id
  | None, None => NoParent
  end.

(** Modelled from the spec: [tracer.trace(name, service, span_type)] creates
    a span under the currently active one and makes it the active span. *)
Definition start_span (name service type : string) (tr : Tracer) : Tracer :=
  {| active := (next_ref tr, new_span name service type (parent_of tr)) :: active tr;
     remote_context := remote_context tr;
     finished := finished tr;
     next_ref := S (next_ref tr) |}.

Definition tracer_trace (t : TracerRef) (name service type : string) : M SpanRef :=
  tr ← get_tracer t;
  put_tracer t (start_span name service type tr);;
  record (ev_trace t (next_ref tr) name service type);;
  mret (next_ref tr).

(** A mutation of the span object [r] held by tracer [t]. *)
Definition update_span (r : SpanRef) (f : Span -> Span) (tr : Tracer) : Tracer :=
  {| active := update_entry r f (active tr);
     remote_context := remote_context tr;
     finished := finished tr;
     next_ref := next_ref tr |}.

Definition mutate_span (t : TracerRef) (r : SpanRef) (f : Span -> Span) : M unit :=
  tr ← get_tracer t;
  put_tracer t (update_span r f tr).

(** Modelled from the spec: the span methods [set_tag_str], [set_tag],
    [set_traceback], [finish] and the assignment to [span.resource]. *)
Definition span_set_tag_str (t : TracerRef) (r : SpanRef) (k v : string) : M unit :=
  record (ev_set_tag_str r k v);;
  mutate_span t r (with_tag k (TagStr v)).

Definition span_set_tag (t : TracerRef) (r : SpanRef) (k : string) (v : TagValue) : M unit :=
  record (ev_set_tag r k v);;
  mutate_span t r (with_tag k v).

Definition span_set_resource (t : TracerRef) (r : SpanRef) (res : string) : M unit :=
  record (ev_set_resource r res);;
  mutate_span t r (with_resource res).

Definition span_set_traceback (t : TracerRef) (r : SpanRef) : M unit :=
  record (ev_set_traceback r);;
  e ← sys_exc_info_0;
  mutate_span t r (with_traceback e).

(** Finishing takes the span off the active stack and hands it over as a
    finished span; finishing a span that is no longer active does nothing. *)
Definition finish_span (r : SpanRef) (tr : Tracer) : Tracer :=
  match lookup_entry r (active tr) with
  | None => tr
  | Some s =>
      {| active := remove_entry r (active tr);
         remote_context := remote_context tr;
         finished := finished tr ++ [(r, mark_finished s)];
         next_ref := next_ref tr |}
  end.

Definition span_finish (t : TracerRef) (r : SpanRef) : M unit :=
  record (ev_finish r);;
  tr ← get_tracer t;
  put_tracer t (finish_span r tr).

(** ** Hook dispatcher *)

(** Modelled from the spec: [Hooks.register] is not in the sources; a
    callback is appended to the ordered sequence of its event. *)
Definition register (event : string) (h : Hook) (c : IntegrationConfig) : IntegrationConfig :=
  {| integration_name := integration_name c;
     settings := settings c;
     hooks := <[event := (default [] (hooks c !! event) ++ [h])%list]> (hooks c) |}.

Fixpoint call_hooks (event : string) (hs : list Hook)
    (t : TracerRef) (span : SpanRef) (req : Request) (resp : Response) : M unit :=
  match hs with
  | [] => mret tt
  | h :: rest =>
      record (ev_hook event (hook_name h) span);;
      mutate_span t span (fun s => hook_call h s req resp);;
      call_hooks event rest t span req resp
  end.

(** Modelled from the spec: [Hooks.emit] is not in the sources; it invokes
    each callback registered for the event, in registration order,
    synchronously. *)
Definition emit (event : string) (t : TracerRef) (span : SpanRef)
    (req : Request) (resp : Response) : M unit :=
  c ← get_config;
  call_hooks event (default [] (hooks c !! event)) t span req resp.

(** ** The middleware *)

Section Middleware.
Context `{Collaborators}.

(** [TraceMiddleware.__init__] *)
Definition __init__ (tracer : TracerRef) (service : option string)
    (distributed_tracing : option bool) : M TraceMiddleware :=
  let service :=
    match service with
    | None => schematize_service_name "falcon"
    | Some s => s
    end in
  match distributed_tracing with
  | Some v =>
      c ← get_config;
      put_config {| integration_name := integration_name c;
                    settings := <["distributed_tracing" := v]> (settings c);
                    hooks := hooks c |}
  | None => mret tt
  end;;
  mret {| mw_tracer := tracer; mw_service := service |}.

(** The dictionary built on the first line of [process_request]. *)
Definition lowercase_keys (headers : pydict) : pydict :=
  dict_of_items (map (fun kv => (lower kv.1, kv.2)) (iteritems headers)).

(** [trace_utils.activate_distributed_headers(tracer, int_config, request_headers)] *)
Definition call_activate_distributed_headers (t : TracerRef) (headers : pydict) : M unit :=
  c ← get_config;
  record (ev_activate_distributed_headers t c headers);;
  tr ← get_tracer t;
  put_tracer t (activate_distributed_headers tr c headers).

(** [trace_utils.set_http_meta(span, config.falcon, **kwargs)] *)
Definition call_set_http_meta (t : TracerRef) (span : SpanRef) (args : HttpMeta) : M unit :=
  c ← get_config;
  record (ev_set_http_meta span args);;
  mutate_span t span (fun s => set_http_meta s c args).

(** [TraceMiddleware.process_request] *)
Definition process_request (self : TraceMiddleware) (req : Request) (resp : Response) : M unit :=
  let headers := lowercase_keys (req_headers req) in
  call_activate_distributed_headers (mw_tracer self) headers;;
  span ← tracer_trace (mw_tracer self)
           (schematize_url_operation "falcon.request" "http" INBOUND)
           (mw_service self) SpanTypes_WEB;
  c ← get_config;
  span_set_tag_str (mw_tracer self) span COMPONENT (integration_name c);;
  span_set_tag_str (mw_tracer self) span SPAN_KIND SpanKind_SERVER;;
  span_set_tag (mw_tracer self) span SPAN_MEASURED_KEY TagNone;;
  span_set_tag (mw_tracer self) span ANALYTICS_SAMPLE_RATE_KEY
    (get_analytics_sample_rate c true);;
  call_set_http_meta (mw_tracer self) span
    {| hm_method := Some (req_method req);
       hm_url := Some (req_url req);
       hm_query := Some (req_query_string req);
       hm_request_headers := Some (req_headers req);
       hm_status_code := None;
       hm_response_headers := None;
       hm_route := None |}.

(** [_name] *)
Definition _name (r : Resource) : string :=
  res_module r +:+ "." +:+ res_class_name r.

(** [TraceMiddleware.process_resource] *)
Definition process_resource (self : TraceMiddleware) (req : Request) (resp : Response)
    (resource : Resource) : M unit :=
  span ← current_span (mw_tracer self);
  match span with
  | None => mret tt
  | Some span =>
      span_set_resource (mw_tracer self) span (req_method req +:+ " " +:+ _name resource)
  end.

(** [_is_404] *)
Definition _is_404 (err_type : ErrType) : bool :=
  str_contains "HTTPNotFound" (err_name err_type).

(** [_detect_and_set_status_error]; a Python function that falls off its
    end returns [None]. *)
Definition _detect_and_set_status_error (err_type : ErrType)
    (t : TracerRef) (span : SpanRef) : M (option string) :=
  if negb (_is_404 err_type) then
    span_set_traceback t span;;
    mret (Some "500")
  else if _is_404 err_type then
    mret (Some "404")
  else
    mret None.

(** The right-hand side of [route = req.root_path or "" + req.uri_template];
    [+] binds tighter than [or]. *)
Definition route_of (req : Request) : string :=
  if truthy (req_root_path req) then default "" (req_root_path req)
  else "" +:+ req_uri_template req.

(** [TraceMiddleware.process_response] *)
Definition process_response (self : TraceMiddleware) (req : Request) (resp : Response)
    (resource : option Resource) (req_succeeded : option bool) : M unit :=
  span ← current_span (mw_tracer self);
  match span with
  | None => mret tt
  | Some span =>
      let status := Some (partition " " (resp_status resp)).1.1 in
      match resource with
      | None =>
          let status := "404" in
          span_set_resource (mw_tracer self) span (req_method req +:+ " 404");;
          span_set_tag (mw_tracer self) span STATUS_CODE (TagStr status);;
          span_finish (mw_tracer self) span
      | Some _ =>
          err_type ← sys_exc_info_0;
          status ←
            match err_type with
            | Some err_type =>
                match req_succeeded with
                | None => _detect_and_set_status_error err_type (mw_tracer self) span
                | Some false => _detect_and_set_status_error err_type (mw_tracer self) span
                | Some true => mret status
                end
            | None => mret status
            end;
          let route := route_of req in
          call_set_http_meta (mw_tracer self) span
            {| hm_method := None; hm_url := None; hm_query := None;
               hm_request_headers := None;
               hm_status_code := status;
               hm_response_headers := Some (resp_headers resp);
               hm_route := Some route |};;
          emit "request" (mw_tracer self) span req resp;;
          span_finish (mw_tracer self) span
      end
  end.

(** One request as the framework drives it: request start, route
    resolution (only when a handler matched), the responder, which may
    leave an exception in flight, and response ready. *)
Definition lifecycle (self : TraceMiddleware) (req : Request) (resp : Response)
    (resource : option Resource) (raised : option ErrType)
    (req_succeeded : option bool) : M unit :=
  process_request self req resp;;
  match resource with
  | Some r => process_resource self req resp r
  | None => mret tt
  end;;
  set_exc_info raised;;
  process_response self req resp resource req_succeeded.

End Middleware.

(** ** A concrete set of collaborators *)

(** Modelled from the spec: [trace_utils.activate_distributed_headers] is
    not in the sources.  Extraction is skipped when distributed tracing is
    disabled; missing identifiers mean no parent. *)
Definition default_activate (tr : Tracer) (c : IntegrationConfig) (headers : pydict) : Tracer :=
  match settings c !! "distributed_tracing" with
  | Some true =>
      match dict_get "x-datadog-trace-id" headers, dict_get "x-datadog-parent-id" headers with
      | Some trace_id, Some parent_id =>
          {| active := active tr;
             remote_context := Some (trace_id, parent_id);
             finished := finished tr;
             next_ref := next_ref tr |}
      | _, _ => tr
      end
  | _ => tr
  end.

Definition with_opt_tag (k : string) (v : option string) (s : Span) : Span :=
  match v with
  | Some v => with_tag k (TagStr v) s
  | None => s
  end.

(** Modelled from the spec: [trace_utils.set_http_meta] is not in the
    sources.  It records the metadata it is given as tags; no header is
    selected for tagging by this configuration. *)
Definition default_set_http_meta (s : Span) (c : IntegrationConfig) (args : HttpMeta) : Span :=
  with_opt_tag "http.route" (hm_route args)
    (with_opt_tag "http.status_code" (hm_status_code args)
       (with_opt_tag "http.query.string" (hm_query args)
          (with_opt_tag "http.url" (hm_url args)
             (with_opt_tag "http.method" (hm_method args) s)))).

#[export] Instance default_collaborators : Collaborators := {|
  schematize_service_name := fun name => name;
  schematize_url_operation := fun op _ _ => op;
  activate_distributed_headers := default_activate;
  set_http_meta := default_set_http_meta;
  get_analytics_sample_rate := fun _ _ => TagNone
|}.

Definition empty_tracer : Tracer :=
  {| active := []; remote_context := None; finished := []; next_ref := 0 |}.

Definition falcon_config (hs : list Hook) : IntegrationConfig :=
  {| integration_name := "falcon";
     settings := {["distributed_tracing" := true]};
     hooks := {["request" := hs]} |}.

Definition initial_world (hs : list Hook) : World :=
  {| tracers := fun _ => empty_tracer;
     config_falcon := falcon_config hs;
     exc_info := None;
     log := [] |}.

(** ** Sample inputs *)

Definition sample_middleware : TraceMiddleware :=
  {| mw_tracer := 0; mw_service := "falcon" |}.

Definition sample_request : Request :=
  {| req_headers := [("X-Datadog-Trace-Id", "77"); ("X-DATADOG-PARENT-ID", "5");
                     ("x-datadog-trace-id", "78")];
     req_method := "GET";
     req_url := "http://localhost/api/users/3";
     req_query_string := "";
     req_root_path := Some "/api";
     req_uri_template := "/users/{id}" |}.

Definition sample_response : Response :=
  {| resp_status := "200 OK"; resp_headers := [("content-type", "text/plain")] |}.

Definition sample_resource : Resource :=
  {| res_module := "app.resources"; res_class_name := "UserResource" |}.

Definition rename_hook : Hook :=
  {| hook_name := "rename";
     hook_call := fun s req _ => with_resource (req_method req +:+ " renamed") s |}.

Definition tag_hook : Hook :=
  {| hook_name := "tag";
     hook_call := fun s _ _ => with_tag "team" (TagStr "web") s |}.

Definition sample_span : Span :=
  new_span "falcon.request" "falcon" SpanTypes_WEB NoParent.

(** A world in which the request span is active on tracer [0]. *)
Definition open_world (hs : list Hook) (e : option ErrType) : World :=
  {| tracers := fun _ =>
       {| active := [(0, sample_span)]; remote_context := None;
          finished := []; next_ref := 1 |};
     config_falcon := falcon_config hs;
     exc_info := e;
     log := [] |}.

(** ** The patch contract *)

Module Patch.

(** An entry point of the target library: the library's own function, or
    a tracing wrapper around an entry point. *)
Inductive Callable :=
| Original (name : string)
| Traced (inner : Callable).

(** Modelled from the spec: the module [ddtrace.contrib.asyncpg.patch]
    ([patch], [unpatch], [get_version]) is not in the sources.  Its state
    is the patched flag, the version of the target library (absent when
    the library is not installed) and the library's entry points by
    name. *)
Record PatchState := {
  patched : bool;
  version : option string;
  entry_points : gmap string Callable
}.

Definition is_patched (s : PatchState) : bool := patched s.
Definition get_version (s : PatchState) : option string := version s.

(** Restoring an entry point removes the wrapper installed by [patch]. *)
Definition restore (c : Callable) : Callable :=
  match c with
  | Traced inner => inner
  | Original name => Original name
  end.

(** Modelled from the spec: [patch()] does nothing when already patched
    and leaves the state unpatched when the library is not installed;
    otherwise it wraps every entry point and marks the state patched. *)
Definition patch (s : PatchState) : PatchState :=
  if patched s then s
  else
    match version s with
    | None => s
    | Some _ =>
        {| patched := true; version := version s;
           entry_points := Traced <$> entry_points s |}
    end.

(** Modelled from the spec: [unpatch()] does nothing when not patched;
    otherwise it restores the original entry points and marks the state
    unpatched. *)
Definition unpatch (s : PatchState) : PatchState :=
  if patched s then
    {| patched := false; version := version s;
       entry_points := restore <$> entry_points s |}
  else s.

(** Number of spans one call of an entry point emits. *)
Fixpoint spans_per_call (c : Callable) : nat :=
  match c with
  | Original _ => 0
  | Traced inner => S (spans_per_call inner)
  end.

Definition asyncpg_installed : PatchState :=
  {| patched := false; version := Some "0.27.0";
     entry_points := {["connect" := Original "connect"]} |}.

Definition asyncpg_absent : PatchState :=
  {| patched := false; version := None; entry_points := ∅ |}.

End Patch.

(** ** Observations *)

(** What one tracer's client sees of the world. *)
Record View := mkView {
  v_tracer : Tracer;
  v_config : IntegrationConfig;
  v_exc : option ErrType;
  v_log : list Event
}.

Definition view (t : TracerRef) (w : World) : View :=
  mkView (tracers w t) (config_falcon w) (exc_info w) (log w).

(** [runs t m v a v']: started in a world that tracer [t]'s client sees as
    [v], the computation [m] returns [a] and leaves a world seen as [v']. *)
Definition runs {A} (t : TracerRef) (m : M A) (v : View) (a : A) (v' : View) : Prop :=
  forall w, view t w = v -> eval m w = a /\ view t (exec m w) = v'.

(** The references on which [finish] was called, in order. *)
Definition finish_calls (l : list Event) : list SpanRef :=
  omap (fun e => match e with ev_finish r => Some r | _ => None end) l.

(** The references returned by [tracer.trace], in order. *)
Definition trace_calls (l : list Event) : list SpanRef :=
  omap (fun e => match e with ev_trace _ r _ _ _ => Some r | _ => None end) l.

(** The configuration and headers handed to the context adapter, in order. *)
Definition activate_calls (l : list Event) : list (IntegrationConfig * pydict) :=
  omap (fun e =>
          match e with
          | ev_activate_distributed_headers _ c h => Some (c, h)
          | _ => None
          end) l.

(** The hook invocations of one emission, in order. *)
Definition hook_events (event : string) (hs : list Hook) (r : SpanRef) : list Event :=
  map (fun h => ev_hook event (hook_name h) r) hs.

(** The span after the callbacks have run on it, in order. *)
Definition after_hooks (hs : list Hook) (req : Request) (resp : Response) (s : Span) : Span :=
  foldl (fun s h => hook_call h s req resp) s hs.

(** The keys of a dictionary, in order. *)
Definition keys (d : pydict) : list string := map fst d.

(** The dictionary comprehension of [process_request] for an arbitrary key
    normalisation [f] in place of [str.lower]. *)
Definition fold_keys (f : string -> string) (headers : pydict) : pydict :=
  dict_of_items (map (fun kv => (f kv.1, kv.2)) (iteritems headers)).

(** The value of the last item whose normalised key is [key]. *)
Fixpoint lookup_folded (f : string -> string) (key : string)
    (items : list (string * string)) : option string :=
  match items with
  | [] => None
  | (k, v) :: rest =>
      match lookup_folded f key rest with
      | Some v' => Some v'
      | None => if String.eqb (f k) key then Some v else None
      end
  end.

(** A request that differs from [req] in its headers only. *)
Definition with_headers (h : pydict) (req : Request) : Request :=
  {| req_headers := h; req_method := req_method req; req_url := req_url req;
     req_query_string := req_query_string req;
     req_root_path := req_root_path req;
     req_uri_template := req_uri_template req |}.

(** The keyword arguments of the [set_http_meta] call in
    [process_response], for a given status. *)
Definition response_meta (req : Request) (resp : Response) (status : option string) : HttpMeta :=
  {| hm_method := None; hm_url := None; hm_query := None;
     hm_request_headers := None;
     hm_status_code := status;
     hm_response_headers := Some (resp_headers resp);
     hm_route := Some (route_of req) |}.

(** The tags and metadata [process_request] puts on the span it creates. *)
Definition request_meta (req : Request) : HttpMeta :=
  {| hm_method := Some (req_method req);
     hm_url := Some (req_url req);
     hm_query := Some (req_query_string req);
     hm_request_headers := Some (req_headers req);
     hm_status_code := None;
     hm_response_headers := None;
     hm_route := None |}.

(** * Properties *)

(** ** The primitives on small inputs *)

Example partition_status_line : partition " " "404 Not Found" = ("404", " ", "Not Found").
Proof. reflexivity. Qed.

Example partition_without_space : partition " " "200" = ("200", "", "").
Proof. reflexivity. Qed.

Example lower_header_name : lower "X-Datadog-Trace-ID" = "x-datadog-trace-id".
Proof. reflexivity. Qed.

Example not_found_marker :
  _is_404 {| err_name := "HTTPNotFound" |} = true /\
  _is_404 {| err_name := "OutOfRangeHTTPNotFoundError" |} = true /\
  _is_404 {| err_name := "ValueError" |} = false.
Proof. repeat split; reflexivity. Qed.

Example lowercase_keys_last_value_wins :
  lowercase_keys (req_headers sample_request) =
    [("x-datadog-trace-id", "78"); ("x-datadog-parent-id", "5")].
Proof. reflexivity. Qed.

Example route_with_root_path : route_of sample_request = "/api".
Proof. reflexivity. Qed.

Example route_without_root_path :
  route_of (with_headers [] {| req_headers := []; req_method := "GET"; req_url := "";
                               req_query_string := ""; req_root_path := None;
                               req_uri_template := "/users/{id}" |}) = "/users/{id}".
Proof. reflexivity. Qed.


(** ** The state monad *)

Lemma runs_ret {A} t (a : A) v : runs t (mret a) v a v.
Proof. intros w Hw. split; [reflexivity | exact Hw]. Qed.

Lemma runs_bind {A B} t (m : M A) (k : A -> M B) v a v1 b v2 :
  runs t m v a v1 -> runs t (k a) v1 b v2 -> runs t (m ≫= k) v b v2.
Proof.
  intros Hm Hk w Hw. destruct (Hm w Hw) as [Ha Hv1].
  unfold eval, exec, mbind, M_bind in *.
  destruct (m w) as [a' w1]; simpl in *; subst a'.
  exact (Hk w1 Hv1).
Qed.

Lemma exec_seq {B} (m : M unit) (k : M B) w : exec (m ;; k) w = exec k (exec m w).
Proof. unfold exec, mbind, M_bind. by destruct (m w). Qed.

Lemma view_log t w : v_log (view t w) = log w.
Proof. reflexivity. Qed.

Lemma view_config t w : v_config (view t w) = config_falcon w.
Proof. reflexivity. Qed.

Lemma view_tracer t w : v_tracer (view t w) = tracers w t.
Proof. reflexivity. Qed.

Lemma view_exc t w : v_exc (view t w) = exc_info w.
Proof. reflexivity. Qed.

Lemma runs_get_config t v : runs t get_config v (v_config v) v.
Proof. intros w <-. split; reflexivity. Qed.

Lemma runs_exc_info t v : runs t sys_exc_info_0 v (v_exc v) v.
Proof. intros w <-. split; reflexivity. Qed.

Lemma runs_set_exc_info t e tr c x l :
  runs t (set_exc_info e) (mkView tr c x l) tt (mkView tr c e l).
Proof. intros w Hw. inversion Hw; subst. split; reflexivity. Qed.

Lemma runs_record t e tr c x l :
  runs t (record e) (mkView tr c x l) tt (mkView tr c x (l ++ [e])).
Proof. intros w Hw. inversion Hw; subst. split; reflexivity. Qed.

Lemma runs_put_config t c' tr c x l :
  runs t (put_config c') (mkView tr c x l) tt (mkView tr c' x l).
Proof. intros w Hw. inversion Hw; subst. split; reflexivity. Qed.

Lemma runs_get_tracer t v : runs t (get_tracer t) v (v_tracer v) v.
Proof. intros w <-. split; reflexivity. Qed.

Lemma runs_put_tracer t tr' tr c x l :
  runs t (put_tracer t tr') (mkView tr c x l) tt (mkView tr' c x l).
Proof.
  intros w Hw. inversion Hw; subst. split; [reflexivity |].
  unfold view, exec, put_tracer; simpl. by rewrite Nat.eqb_refl.
Qed.

Lemma runs_current_span t v :
  runs t (current_span t) v (fst <$> head (active (v_tracer v))) v.
Proof. intros w <-. split; reflexivity. Qed.

Create HintDb runs discriminated.
#[local] Hint Resolve runs_ret runs_get_config runs_exc_info runs_set_exc_info
  runs_record runs_put_config runs_get_tracer runs_put_tracer
  runs_current_span : runs.

(** Runs the next statement of a sequence with a known rule. *)
Ltac runs_step :=
  eapply runs_bind; [ solve [ eauto with runs ] | cbn beta iota ].

(** ** Span operations *)

Lemma update_entry_compose r f g l :
  update_entry r g (update_entry r f l) = update_entry r (fun s => g (f s)) l.
Proof.
  induction l as [| [r' s] l IH]; [reflexivity |].
  simpl. destruct (Nat.eqb r' r) eqn:E; simpl; rewrite E; [reflexivity |].
  by rewrite IH.
Qed.

Lemma update_span_compose r f g tr :
  update_span r g (update_span r f tr) = update_span r (fun s => g (f s)) tr.
Proof. unfold update_span; simpl. by rewrite update_entry_compose. Qed.

Lemma update_span_active r f tr s st :
  active tr = (r, s) :: st -> active (update_span r f tr) = (r, f s) :: st.
Proof. intros E. unfold update_span; simpl. rewrite E; simpl. by rewrite Nat.eqb_refl. Qed.

Lemma finish_span_head r tr s st :
  active tr = (r, s) :: st ->
  finish_span r tr =
    {| active := st; remote_context := remote_context tr;
       finished := finished tr ++ [(r, mark_finished s)];
       next_ref := next_ref tr |}.
Proof. intros E. unfold finish_span. rewrite E; simpl. by rewrite Nat.eqb_refl. Qed.

Lemma runs_mutate_span t r f tr c x l :
  runs t (mutate_span t r f) (mkView tr c x l) tt (mkView (update_span r f tr) c x l).
Proof. unfold mutate_span. runs_step. apply runs_put_tracer. Qed.

Lemma runs_set_tag_str t r k v tr c x l :
  runs t (span_set_tag_str t r k v) (mkView tr c x l) tt
    (mkView (update_span r (with_tag k (TagStr v)) tr) c x (l ++ [ev_set_tag_str r k v])).
Proof. unfold span_set_tag_str. runs_step. apply runs_mutate_span. Qed.

Lemma runs_set_tag t r k v tr c x l :
  runs t (span_set_tag t r k v) (mkView tr c x l) tt
    (mkView (update_span r (with_tag k v) tr) c x (l ++ [ev_set_tag r k v])).
Proof. unfold span_set_tag. runs_step. apply runs_mutate_span. Qed.

Lemma runs_set_resource t r res tr c x l :
  runs t (span_set_resource t r res) (mkView tr c x l) tt
    (mkView (update_span r (with_resource res) tr) c x (l ++ [ev_set_resource r res])).
Proof. unfold span_set_resource. runs_step. apply runs_mutate_span. Qed.

Lemma runs_set_traceback t r tr c x l :
  runs t (span_set_traceback t r) (mkView tr c x l) tt
    (mkView (update_span r (with_traceback x) tr) c x (l ++ [ev_set_traceback r])).
Proof. unfold span_set_traceback. runs_step. runs_step. apply runs_mutate_span. Qed.

Lemma runs_finish t r tr c x l :
  runs t (span_finish t r) (mkView tr c x l) tt
    (mkView (finish_span r tr) c x (l ++ [ev_finish r])).
Proof. unfold span_finish. runs_step. runs_step. apply runs_put_tracer. Qed.

Lemma runs_trace t name service type tr c x l :
  runs t (tracer_trace t name service type) (mkView tr c x l) (next_ref tr)
    (mkView (start_span name service type tr) c x
       (l ++ [ev_trace t (next_ref tr) name service type])).
Proof. unfold tracer_trace. runs_step. runs_step. runs_step. apply runs_ret. Qed.

#[local] Hint Resolve runs_mutate_span runs_set_tag_str runs_set_tag
  runs_set_resource runs_set_traceback runs_finish runs_trace : runs.

(** ** Hook dispatch *)

Lemma runs_call_hooks event hs t r req resp tr c x l :
  runs t (call_hooks event hs t r req resp) (mkView tr c x l) tt
    (mkView (update_span r (after_hooks hs req resp) tr) c x
       (l ++ hook_events event hs r)).
Proof.
  revert tr l. induction hs as [| h hs IH]; intros tr l.
  - simpl. unfold after_hooks, hook_events; simpl. rewrite app_nil_r.
    replace (update_span r (fun s => s) tr) with tr; [apply runs_ret |].
    destruct tr as [a rc f n]. unfold update_span; simpl. f_equal.
    induction a as [| [r' s] a IHa]; [reflexivity |].
    simpl. destruct (Nat.eqb r' r); [reflexivity | by rewrite <- IHa].
  - cbn [call_hooks]. runs_step. runs_step.
    replace (l ++ hook_events event (h :: hs) r)
      with ((l ++ [ev_hook event (hook_name h) r]) ++ hook_events event hs r)
      by (by rewrite <- app_assoc).
    replace (update_span r (after_hooks (h :: hs) req resp) tr)
      with (update_span r (after_hooks hs req resp)
              (update_span r (fun s => hook_call h s req resp) tr))
      by (by rewrite update_span_compose).
    apply IH.
Qed.

Lemma runs_emit event t r req resp tr c x l :
  runs t (emit event t r req resp) (mkView tr c x l) tt
    (mkView (update_span r (after_hooks (default [] (hooks c !! event)) req resp) tr) c x
       (l ++ hook_events event (default [] (hooks c !! event)) r)).
Proof. unfold emit. runs_step. apply runs_call_hooks. Qed.

#[local] Hint Resolve runs_emit : runs.

(** ** The middleware's steps *)

Section MiddlewareFacts.
Context `{Collaborators}.

Lemma runs_call_set_http_meta t r args tr c x l :
  runs t (call_set_http_meta t r args) (mkView tr c x l) tt
    (mkView (update_span r (fun s => set_http_meta s c args) tr) c x
       (l ++ [ev_set_http_meta r args])).
Proof. unfold call_set_http_meta. runs_step. runs_step. apply runs_mutate_span. Qed.

Lemma runs_call_activate t headers tr c x l :
  runs t (call_activate_distributed_headers t headers) (mkView tr c x l) tt
    (mkView (activate_distributed_headers tr c headers) c x
       (l ++ [ev_activate_distributed_headers t c headers])).
Proof.
  unfold call_activate_distributed_headers.
  runs_step. runs_step. runs_step. apply runs_put_tracer.
Qed.

(** Error classification returns ["404"] and leaves the span alone, or
    returns ["500"] after capturing the traceback; it never falls off its
    end. *)
Lemma runs_detect e t r tr c x l :
  runs t (_detect_and_set_status_error e t r) (mkView tr c x l)
    (Some (if _is_404 e then "404" else "500"))
    (if _is_404 e then mkView tr c x l
     else mkView (update_span r (with_traceback x) tr) c x (l ++ [ev_set_traceback r])).
Proof.
  unfold _detect_and_set_status_error. destruct (_is_404 e); simpl.
  - apply runs_ret.
  - eapply runs_bind; [apply runs_set_traceback | apply runs_ret].
Qed.

(** The last three statements of [process_response]. *)
Lemma runs_response_tail t r req resp args tr c x l s st :
  active tr = (r, s) :: st ->
  runs t
    (call_set_http_meta t r args;;
     emit "request" t r req resp;;
     span_finish t r)
    (mkView tr c x l) tt
    (mkView
       {| active := st;
          remote_context := remote_context tr;
          finished := finished tr ++
            [(r, mark_finished
                   (after_hooks (default [] (hooks c !! "request")) req resp
                      (set_http_meta s c args)))];
          next_ref := next_ref tr |}
       c x
       (l ++ [ev_set_http_meta r args]
          ++ hook_events "request" (default [] (hooks c !! "request")) r
          ++ [ev_finish r])).
Proof.
  intros Hact.
  eapply runs_bind; [apply runs_call_set_http_meta |].
  eapply runs_bind; [apply runs_emit |].
  rewrite update_span_compose.
  match goal with
  | |- runs _ _ (mkView ?tr1 _ _ _) _ (mkView ?tr2 _ _ _) =>
      replace tr2 with (finish_span r tr1)
  end.
  - rewrite !app_assoc. apply runs_finish.
  - erewrite finish_span_head by (by apply update_span_active). reflexivity.
Qed.

(** [process_response] when no handler matched. *)
Lemma runs_process_response_unmatched self req resp rs tr c x l r s st :
  active tr = (r, s) :: st ->
  runs (mw_tracer self) (process_response self req resp None rs)
    (mkView tr c x l) tt
    (mkView
       {| active := st;
          remote_context := remote_context tr;
          finished := finished tr ++
            [(r, mark_finished
                   (with_tag STATUS_CODE (TagStr "404")
                      (with_resource (req_method req +:+ " 404") s)))];
          next_ref := next_ref tr |}
       c x
       (l ++ [ev_set_resource r (req_method req +:+ " 404");
              ev_set_tag r STATUS_CODE (TagStr "404");
              ev_finish r])).
Proof.
  intros Hact. unfold process_response.
  eapply runs_bind; [apply runs_current_span |].
  cbn [v_tracer]. rewrite Hact. cbn [head fmap option_fmap option_map fst].
  eapply runs_bind; [apply runs_set_resource |].
  eapply runs_bind; [apply runs_set_tag |].
  rewrite update_span_compose.
  match goal with
  | |- runs _ _ (mkView ?tr1 _ _ _) _ (mkView ?tr2 _ _ _) =>
      replace tr2 with (finish_span r tr1)
  end.
  - replace (l ++ [ev_set_resource r (req_method req +:+ " 404");
                   ev_set_tag r STATUS_CODE (TagStr "404"); ev_finish r])
      with (((l ++ [ev_set_resource r (req_method req +:+ " 404")])
              ++ [ev_set_tag r STATUS_CODE (TagStr "404")]) ++ [ev_finish r])
      by (by rewrite <- !app_assoc).
    apply runs_finish.
  - erewrite finish_span_head by (by apply update_span_active). reflexivity.
Qed.

(** [process_response] when a handler matched: the status handed on and
    the traceback depend on the exception in flight and on
    [req_succeeded]. *)
Lemma runs_process_response_matched self req resp res rs tr c x l r s st :
  active tr = (r, s) :: st ->
  let parsed := (partition " " (resp_status resp)).1.1 in
  let '(status, tb) :=
    match x, rs with
    | Some e, None | Some e, Some false =>
        (if _is_404 e then "404" else "500", negb (_is_404 e))
    | _, _ => (parsed, false)
    end in
  let args := response_meta req resp (Some status) in
  let hs := default [] (hooks c !! "request") in
  runs (mw_tracer self) (process_response self req resp (Some res) rs)
    (mkView tr c x l) tt
    (mkView
       {| active := st;
          remote_context := remote_context tr;
          finished := finished tr ++
            [(r, mark_finished
                   (after_hooks hs req resp
                      (set_http_meta (if tb then with_traceback x s else s) c args)))];
          next_ref := next_ref tr |}
       c x
       (l ++ (if tb then [ev_set_traceback r] else [])
          ++ [ev_set_http_meta r args]
          ++ hook_events "request" hs r
          ++ [ev_finish r])).
Proof.
  intros Hact parsed.
  assert (Hplain :
    runs (mw_tracer self)
      (status ← mret (Some parsed);
       call_set_http_meta (mw_tracer self) r
         {| hm_method := None; hm_url := None; hm_query := None;
            hm_request_headers := None; hm_status_code := status;
            hm_response_headers := Some (resp_headers resp);
            hm_route := Some (route_of req) |};;
       emit "request" (mw_tracer self) r req resp;;
       span_finish (mw_tracer self) r)
      (mkView tr c x l) tt
      (mkView
         {| active := st;
            remote_context := remote_context tr;
            finished := finished tr ++
              [(r, mark_finished
                     (after_hooks (default [] (hooks c !! "request")) req resp
                        (set_http_meta s c (response_meta req resp (Some parsed)))))];
            next_ref := next_ref tr |}
         c x
         (l ++ [] ++ [ev_set_http_meta r (response_meta req resp (Some parsed))]
            ++ hook_events "request" (default [] (hooks c !! "request")) r
            ++ [ev_finish r]))).
  { eapply runs_bind; [apply runs_ret |].
    apply (runs_response_tail _ _ _ _ _ _ _ _ _ _ _ Hact). }
  assert (Hdetect : forall e,
    runs (mw_tracer self)
      (status ← _detect_and_set_status_error e (mw_tracer self) r;
       call_set_http_meta (mw_tracer self) r
         {| hm_method := None; hm_url := None; hm_query := None;
            hm_request_headers := None; hm_status_code := status;
            hm_response_headers := Some (resp_headers resp);
            hm_route := Some (route_of req) |};;
       emit "request" (mw_tracer self) r req resp;;
       span_finish (mw_tracer self) r)
      (mkView tr c x l) tt
      (mkView
         {| active := st;
            remote_context := remote_context tr;
            finished := finished tr ++
              [(r, mark_finished
                     (after_hooks (default [] (hooks c !! "request")) req resp
                        (set_http_meta
                           (if negb (_is_404 e) then with_traceback x s else s) c
                           (response_meta req resp
                              (Some (if _is_404 e then "404" else "500"))))))];
            next_ref := next_ref tr |}
         c x
         (l ++ (if negb (_is_404 e) then [ev_set_traceback r] else [])
            ++ [ev_set_http_meta r
                  (response_meta req resp (Some (if _is_404 e then "404" else "500")))]
            ++ hook_events "request" (default [] (hooks c !! "request")) r
            ++ [ev_finish r]))).
  { intros e. eapply runs_bind; [apply runs_detect |].
    destruct (_is_404 e); cbn [negb].
    - apply (runs_response_tail _ _ _ _ _ _ _ _ _ _ _ Hact).
    - rewrite app_assoc.
      eapply (runs_response_tail _ _ _ _ _ (update_span r (with_traceback x) tr)).
      by apply update_span_active. }
  unfold process_response.
  destruct x as [e |]; [destruct rs as [[|] |] |]; cbn zeta;
    (eapply runs_bind; [apply runs_current_span |]);
    cbn [v_tracer]; rewrite Hact; cbn [head fmap option_fmap option_map fst];
    (eapply runs_bind; [apply runs_exc_info |]); cbn [v_exc];
    first [apply Hplain | apply Hdetect].
Qed.

(** [process_request]: the adapter is called on the lower-cased headers,
    then a span is created, made active and annotated. *)
Lemma runs_process_request self req resp tr c x l :
  let t := mw_tracer self in
  let headers := lowercase_keys (req_headers req) in
  let tr0 := activate_distributed_headers tr c headers in
  let r := next_ref tr0 in
  let name := schematize_url_operation "falcon.request" "http" INBOUND in
  exists s,
    runs t (process_request self req resp) (mkView tr c x l) tt
      (mkView
         {| active := (r, s) :: active tr0;
            remote_context := remote_context tr0;
            finished := finished tr0;
            next_ref := S r |}
         c x
         (l ++ [ev_activate_distributed_headers t c headers;
                ev_trace t r name (mw_service self) SpanTypes_WEB;
                ev_set_tag_str r COMPONENT (integration_name c);
                ev_set_tag_str r SPAN_KIND SpanKind_SERVER;
                ev_set_tag r SPAN_MEASURED_KEY TagNone;
                ev_set_tag r ANALYTICS_SAMPLE_RATE_KEY (get_analytics_sample_rate c true);
                ev_set_http_meta r (request_meta req)])).
Proof.
  intros t headers tr0 r name. eexists.
  unfold process_request.
  eapply runs_bind; [apply runs_call_activate |].
  eapply runs_bind; [apply runs_trace |].
  eapply runs_bind; [apply runs_get_config |]. cbn [v_config].
  eapply runs_bind; [apply runs_set_tag_str |].
  eapply runs_bind; [apply runs_set_tag_str |].
  eapply runs_bind; [apply runs_set_tag |].
  eapply runs_bind; [apply runs_set_tag |].
  rewrite !update_span_compose.
  match goal with
  | |- runs _ _ (mkView ?tr1 _ _ ?l1) _ (mkView ?tr2 _ _ ?l2) =>
      replace l2 with (l1 ++ [ev_set_http_meta r (request_meta req)])
        by (rewrite <- !app_assoc; reflexivity);
      replace tr2 with
        (update_span r (fun s => set_http_meta s c (request_meta req)) tr1);
      [apply runs_call_set_http_meta |]
  end.
  rewrite update_span_compose.
  unfold update_span, start_span; cbn [active remote_context finished next_ref update_entry].
  fold tr0. fold r. rewrite Nat.eqb_refl. reflexivity.
Qed.

(** [process_resource] on an active span. *)
Lemma runs_process_resource self req resp res tr c x l r s st :
  active tr = (r, s) :: st ->
  runs (mw_tracer self) (process_resource self req resp res) (mkView tr c x l) tt
    (mkView
       {| active := (r, with_resource (req_method req +:+ " " +:+ _name res) s) :: st;
          remote_context := remote_context tr;
          finished := finished tr;
          next_ref := next_ref tr |}
       c x
       (l ++ [ev_set_resource r (req_method req +:+ " " +:+ _name res)])).
Proof.
  intros Hact. unfold process_resource.
  eapply runs_bind; [apply runs_current_span |].
  cbn [v_tracer]. rewrite Hact. cbn [head fmap option_fmap option_map fst].
  match goal with
  | |- runs _ _ (mkView ?tr1 _ _ _) _ (mkView ?tr2 _ _ _) =>
      replace tr2 with
        (update_span r (with_resource (req_method req +:+ " " +:+ _name res)) tr1);
      [apply runs_set_resource |]
  end.
  unfold update_span. rewrite Hact. cbn [update_entry]. by rewrite Nat.eqb_refl.
Qed.

(** The matched path in one statement: some status is handed to
    [set_http_meta], possibly after a traceback capture; then the hooks
    run, then the span is finished. *)
Lemma runs_process_response_matched_ex self req resp res rs tr c x l r s st :
  active tr = (r, s) :: st ->
  exists status (tb : bool),
    runs (mw_tracer self) (process_response self req resp (Some res) rs)
      (mkView tr c x l) tt
      (mkView
         {| active := st;
            remote_context := remote_context tr;
            finished := finished tr ++
              [(r, mark_finished
                     (after_hooks (default [] (hooks c !! "request")) req resp
                        (set_http_meta (if tb then with_traceback x s else s) c
                           (response_meta req resp (Some status)))))];
            next_ref := next_ref tr |}
         c x
         (l ++ (if tb then [ev_set_traceback r] else [])
            ++ [ev_set_http_meta r (response_meta req resp (Some status))]
            ++ hook_events "request" (default [] (hooks c !! "request")) r
            ++ [ev_finish r])).
Proof.
  intros Hact.
  pose proof (runs_process_response_matched self req resp res rs tr c x l r s st Hact) as Hm.
  cbn zeta in Hm.
  destruct (match x with
            | Some e =>
                match rs with
                | Some true => ((partition " " (resp_status resp)).1.1, false)
                | _ => (if _is_404 e then "404" else "500", negb (_is_404 e))
                end
            | None => ((partition " " (resp_status resp)).1.1, false)
            end) as [status tb].
  by exists status, tb.
Qed.

Lemma finish_calls_hook_events event hs r : finish_calls (hook_events event hs r) = [].
Proof. induction hs as [| h hs IH]; [reflexivity | exact IH]. Qed.

Lemma trace_calls_hook_events event hs r : trace_calls (hook_events event hs r) = [].
Proof. induction hs as [| h hs IH]; [reflexivity | exact IH]. Qed.

Lemma activate_calls_hook_events event hs r : activate_calls (hook_events event hs r) = [].
Proof. induction hs as [| h hs IH]; [reflexivity | exact IH]. Qed.

Lemma finish_calls_app l1 l2 : finish_calls (l1 ++ l2) = finish_calls l1 ++ finish_calls l2.
Proof. apply omap_app. Qed.

Lemma trace_calls_app l1 l2 : trace_calls (l1 ++ l2) = trace_calls l1 ++ trace_calls l2.
Proof. apply omap_app. Qed.

Lemma activate_calls_app l1 l2 :
  activate_calls (l1 ++ l2) = activate_calls l1 ++ activate_calls l2.
Proof. apply omap_app. Qed.

(** One whole request: the adapter is called once, one span is created,
    and [finish] is called once, on that span. *)
Lemma lifecycle_view self req resp ores raised rs w :
  exists r new tr',
    view (mw_tracer self) (exec (lifecycle self req resp ores raised rs) w) =
      mkView tr' (config_falcon w) raised (log w ++ new) /\
    trace_calls new = [r] /\
    finish_calls new = [r] /\
    activate_calls new = [(config_falcon w, lowercase_keys (req_headers req))].
Proof.
  set (t := mw_tracer self).
  destruct (runs_process_request self req resp (tracers w t) (config_falcon w)
              (exc_info w) (log w)) as [s1 Hreq].
  cbn zeta in Hreq. fold t in Hreq.
  set (tr0 := activate_distributed_headers (tracers w t) (config_falcon w)
                (lowercase_keys (req_headers req))) in *.
  set (r := next_ref tr0) in *.
  exists r.
  unfold lifecycle. rewrite !exec_seq.
  destruct (Hreq w eq_refl) as [_ Hv1].
  set (w1 := exec (process_request self req resp) w) in *.
  destruct ores as [res |].
  - match type of Hv1 with
    | view _ _ = mkView ?tr ?c ?x ?l =>
        pose proof (proj2 (runs_process_resource self req resp res tr c x l
                             r s1 (active tr0) eq_refl w1 Hv1)) as Hv2
    end.
    set (w2 := exec (process_resource self req resp res) w1) in *.
    destruct (runs_set_exc_info t raised _ _ _ _ w2 Hv2) as [_ Hv3].
    set (w3 := exec (set_exc_info raised) w2) in *.
    match type of Hv3 with
    | view _ _ = mkView ?tr ?c ?x ?l =>
        destruct (runs_process_response_matched_ex self req resp res rs tr c x l r _ _ eq_refl)
          as (status & tb & Hresp)
    end.
    destruct (Hresp w3 Hv3) as [_ Hv4].
    eexists _, _. split.
    + subst t. rewrite Hv4. rewrite <- !app_assoc. reflexivity.
    + rewrite !trace_calls_app, !finish_calls_app, !activate_calls_app.
      rewrite trace_calls_hook_events, finish_calls_hook_events,
        activate_calls_hook_events.
      destruct tb; by repeat split.
  - destruct (runs_ret t tt _ w1 Hv1) as [_ Hv2].
    set (w2 := exec (mret tt) w1) in *.
    destruct (runs_set_exc_info t raised _ _ _ _ w2 Hv2) as [_ Hv3].
    set (w3 := exec (set_exc_info raised) w2) in *.
    match type of Hv3 with
    | view _ _ = mkView ?tr ?c ?x ?l =>
        pose proof (proj2 (runs_process_response_unmatched self req resp rs tr c x l
                             r s1 (active tr0) eq_refl w3 Hv3)) as Hv4
    end.
    eexists _, _. split.
    + subst t. rewrite Hv4. rewrite <- !app_assoc. reflexivity.
    + by repeat split.
Qed.

End MiddlewareFacts.

(** ** Status line *)

Lemma starts_with_space_cons c s :
  c <> " "%char -> starts_with " " (String c s) = false.
Proof.
  intros Hc. cbn [starts_with].
  destruct (Ascii.eqb_spec " " c) as [E | _]; [by destruct Hc | reflexivity].
Qed.

Lemma partition_before_space_free s :
  str_contains " " (partition " " s).1.1 = false.
Proof.
  induction s as [| c s IH]; [reflexivity |].
  cbn [partition]. destruct (Ascii.eqb_spec c " ") as [-> | Hc]; [reflexivity |].
  destruct (partition " " s) as [[before found] after]; cbn [fst] in *.
  cbn [str_contains]. by rewrite (starts_with_space_cons _ _ Hc).
Qed.

Lemma partition_split s :
  if str_contains " " s
  then exists rest, s = (partition " " s).1.1 +:+ " " +:+ rest
  else (partition " " s).1.1 = s.
Proof.
  induction s as [| c s IH]; [reflexivity |].
  cbn [str_contains partition].
  destruct (Ascii.eqb_spec c " ") as [-> | Hc].
  - cbn. by exists s.
  - rewrite (starts_with_space_cons _ _ Hc). cbn [orb].
    destruct (partition " " s) as [[before found] after]; cbn [fst] in *.
    destruct (str_contains " " s).
    + destruct IH as [rest ->]. by exists rest.
    + by rewrite IH.
Qed.

(** ** Lower-cased header dictionaries *)

Lemma lower_ascii_idem c : lower_ascii (lower_ascii c) = lower_ascii c.
Proof. destruct c as [[] [] [] [] [] [] [] []]; reflexivity. Qed.

Lemma lower_idem s : lower (lower s) = lower s.
Proof.
  induction s as [| c s IH]; [reflexivity |].
  cbn [lower]. by rewrite lower_ascii_idem, IH.
Qed.

Lemma dict_set_fresh k v d : k ∉ keys d -> dict_set k v d = d ++ [(k, v)].
Proof.
  induction d as [| [k' v'] d IH]; intros Hk; [reflexivity |].
  cbn [dict_set]. destruct (String.eqb_spec k' k) as [-> | Hne].
  - exfalso. apply Hk. unfold keys; cbn. left.
  - cbn. f_equal. apply IH. intros Hin. apply Hk. unfold keys in *; cbn. by right.
Qed.

Lemma keys_dict_set k v d :
  keys (dict_set k v d) = if decide (k ∈ keys d) then keys d else keys d ++ [k].
Proof.
  induction d as [| [k' v'] d IH].
  - cbn. case_decide as Hin; [by apply elem_of_nil in Hin | reflexivity].
  - cbn [dict_set]. destruct (String.eqb_spec k' k) as [-> | Hne].
    + clear IH. unfold keys; cbn.
      destruct (decide (k ∈ k :: map fst d)) as [_ | Hin]; [reflexivity |].
      exfalso. apply Hin. left.
    + unfold keys in *; cbn. rewrite IH. clear IH.
      destruct (decide (k ∈ map fst d)) as [Hin | Hin];
        destruct (decide (k ∈ k' :: map fst d)) as [Hin' | Hin']; try reflexivity.
      * exfalso. apply Hin'. by right.
      * exfalso. apply elem_of_cons in Hin' as [-> | Hin']; [by apply Hne | by apply Hin].
Qed.

Lemma dict_set_NoDup k v d : NoDup (keys d) -> NoDup (keys (dict_set k v d)).
Proof.
  intros Hd. rewrite keys_dict_set. case_decide as Hin; [exact Hd |].
  apply NoDup_app. split; [exact Hd |]. split.
  - intros k' Hk' Hk. apply list_elem_of_singleton in Hk as ->. by apply Hin.
  - apply NoDup_singleton.
Qed.

Lemma dict_set_keys_Forall (P : string -> Prop) k v d :
  P k -> Forall P (keys d) -> Forall P (keys (dict_set k v d)).
Proof.
  intros Hk Hd. rewrite keys_dict_set. case_decide; [exact Hd |].
  apply Forall_app. split; [exact Hd | by apply Forall_singleton].
Qed.

Lemma foldl_dict_set_invariant (P : string -> Prop) items acc :
  NoDup (keys acc) -> Forall P (keys acc) -> Forall P (keys items) ->
  NoDup (keys (foldl (fun d kv => dict_set kv.1 kv.2 d) acc items)) /\
  Forall P (keys (foldl (fun d kv => dict_set kv.1 kv.2 d) acc items)).
Proof.
  revert acc. induction items as [| [k v] items IH]; intros acc Hnd Hacc Hitems.
  - by split.
  - cbn [foldl]. unfold keys in Hitems; cbn in Hitems.
    apply Forall_cons in Hitems as [Hk Hitems].
    apply IH; [by apply dict_set_NoDup | by apply dict_set_keys_Forall | exact Hitems].
Qed.

(** Building a dictionary from the items of a dictionary gives it back. *)
Lemma foldl_dict_set_distinct items acc :
  NoDup (keys (acc ++ items)) ->
  foldl (fun d kv => dict_set kv.1 kv.2 d) acc items = acc ++ items.
Proof.
  revert acc. induction items as [| [k v] items IH]; intros acc Hnd.
  - by rewrite app_nil_r.
  - cbn [foldl fst snd].
    assert (Hk : k ∉ keys acc).
    { unfold keys in *. rewrite map_app in Hnd. cbn in Hnd.
      apply NoDup_app in Hnd as (_ & Hdisj & _).
      intros Hin. apply (Hdisj k Hin). left. }
    rewrite (dict_set_fresh _ _ _ Hk).
    rewrite IH; [by rewrite <- app_assoc |].
    by rewrite <- app_assoc.
Qed.

Lemma dict_get_dict_set key k v d :
  dict_get key (dict_set k v d) = if String.eqb k key then Some v else dict_get key d.
Proof.
  induction d as [| [k' v'] d IH].
  - cbn. by destruct (String.eqb k key).
  - cbn [dict_set]. destruct (String.eqb_spec k' k) as [-> | Hne]; cbn [dict_get].
    + by destruct (String.eqb k key).
    + destruct (String.eqb_spec k' key) as [-> | Hne'].
      * destruct (String.eqb_spec k key) as [-> | _]; [by destruct Hne | reflexivity].
      * exact IH.
Qed.

Section KeyFolding.
Variable f : string -> string.

Lemma dict_get_foldl_folded key items acc :
  dict_get key (foldl (fun d kv => dict_set kv.1 kv.2 d) acc
                  (map (fun kv => (f kv.1, kv.2)) items)) =
    match lookup_folded f key items with
    | Some v => Some v
    | None => dict_get key acc
    end.
Proof.
  revert acc. induction items as [| [k v] items IH]; intros acc; [reflexivity |].
  cbn [map foldl fst snd lookup_folded]. rewrite IH.
  destruct (lookup_folded f key items); [reflexivity |].
  rewrite dict_get_dict_set. by destruct (String.eqb (f k) key).
Qed.

(** Looking a key up in the normalised dictionary finds the last item whose
    normalised key is that key. *)
Lemma dict_get_fold_keys key headers :
  dict_get key (fold_keys f headers) = lookup_folded f key headers.
Proof.
  unfold fold_keys, dict_of_items, iteritems. rewrite dict_get_foldl_folded.
  by destruct (lookup_folded f key headers).
Qed.

Hypothesis f_idem : forall k, f (f k) = f k.

Lemma keys_folded items :
  Forall (fun k => f k = k) (keys (map (fun kv => (f kv.1, kv.2)) items)).
Proof.
  induction items as [| [k v] items IH]; [constructor |].
  unfold keys in *; cbn. constructor; [apply f_idem | exact IH].
Qed.

Lemma map_fold_fixed (d : pydict) :
  Forall (fun k => f k = k) (keys d) ->
  map (fun kv => (f kv.1, kv.2)) d = d.
Proof.
  induction d as [| [k v] d IH]; intros Hd; [reflexivity |].
  unfold keys in Hd; cbn in Hd. apply Forall_cons in Hd as [Hk Hd].
  cbn. rewrite Hk. f_equal. by apply IH.
Qed.

(** Normalising the keys of a dictionary whose keys are normalised changes
    nothing, whatever the idempotent normalisation. *)
Lemma fold_keys_idem headers :
  fold_keys f (fold_keys f headers) = fold_keys f headers.
Proof.
  destruct (foldl_dict_set_invariant (fun k => f k = k)
              (map (fun kv => (f kv.1, kv.2)) headers) [])
    as [Hnd Hfix]; [constructor | constructor | apply keys_folded |].
  fold (dict_of_items (map (fun kv => (f kv.1, kv.2)) headers)) in Hnd, Hfix.
  change (dict_of_items (map (fun kv => (f kv.1, kv.2)) headers))
    with (fold_keys f headers) in Hnd, Hfix.
  unfold fold_keys at 1. unfold iteritems at 1.
  rewrite (map_fold_fixed _ Hfix).
  unfold dict_of_items. by rewrite foldl_dict_set_distinct.
Qed.

End KeyFolding.

Lemma lowercase_keys_idem headers :
  lowercase_keys (lowercase_keys headers) = lowercase_keys headers.
Proof. exact (fold_keys_idem lower lower_idem headers). Qed.

Lemma dict_get_lowercase_keys key headers :
  dict_get key (lowercase_keys headers) = lookup_folded lower key headers.
Proof. exact (dict_get_fold_keys lower key headers). Qed.

(** ** The claims *)

Section Claims.
Context `{Collaborators}.

(** C5: for every response status line, the status code that
    [process_response] computes on line 66 contains no space, is the whole
    line when the line contains no space, and is otherwise followed in the
    line by a space and the rest of the line: it is the substring before
    the first space.  Whenever that code is the one in force, that is on
    the matched path with no exception in flight or with [req_succeeded]
    true, [process_response] runs through to [finish] and the status it
    hands to [set_http_meta] is that code. *)
Theorem status_code_is_prefix_before_first_space self req resp res rs w r s st :
  active (tracers w (mw_tracer self)) = (r, s) :: st ->
  exc_info w = None \/ rs = Some true ->
  let hs := default [] (hooks (config_falcon w) !! "request") in
  exists code,
    log (exec (process_response self req resp (Some res) rs) w) =
      log w ++ [ev_set_http_meta r
                  {| hm_method := None; hm_url := None; hm_query := None;
                     hm_request_headers := None;
                     hm_status_code := Some code;
                     hm_response_headers := Some (resp_headers resp);
                     hm_route := Some (route_of req) |}]
            ++ hook_events "request" hs r ++ [ev_finish r] /\
    str_contains " " code = false /\
    (if str_contains " " (resp_status resp)
     then exists rest, resp_status resp = code +:+ " " +:+ rest
     else code = resp_status resp).
Proof.
  intros Hact Hno hs.
  set (t := mw_tracer self) in *.
  assert (Hv : view t w = mkView (tracers w t) (config_falcon w) (exc_info w) (log w))
    by reflexivity.
  revert Hv Hno. generalize (exc_info w). intros x Hv Hno.
  pose proof (runs_process_response_matched self req resp res rs
                (tracers w t) (config_falcon w) x (log w) r s st Hact) as Hm.
  cbn zeta in Hm.
  exists (partition " " (resp_status resp)).1.1.
  split; [| split; [apply partition_before_space_free | apply partition_split]].
  assert (Hplain : x = None \/ rs = Some true ->
    match x with
    | Some e =>
        match rs with
        | Some true => ((partition " " (resp_status resp)).1.1, false)
        | _ => (if _is_404 e then "404" else "500", negb (_is_404 e))
        end
    | None => ((partition " " (resp_status resp)).1.1, false)
    end = ((partition " " (resp_status resp)).1.1, false)).
  { intros [-> | ->]; [reflexivity |]. by destruct x. }
  rewrite (Hplain Hno) in Hm.
  destruct (Hm w Hv) as [_ Hview].
  apply (f_equal v_log) in Hview. rewrite view_log in Hview.
  cbn [v_log app] in Hview. exact Hview.
Qed.

(** C6: when the tracer reports no active span, [process_resource] and
    [process_response] return at once and leave the world, and with it
    every span, the configuration and the log of calls, exactly as it
    was. *)
Theorem no_active_span_is_ignored self req resp res ores rs w :
  eval (current_span (mw_tracer self)) w = None ->
  process_resource self req resp res w = (tt, w) /\
  process_response self req resp ores rs w = (tt, w).
Proof.
  intros Hnone.
  unfold eval, current_span, get_tracer, mbind, M_bind, mret, M_ret in Hnone.
  simpl in Hnone.
  unfold process_resource, process_response, current_span, get_tracer,
    mbind, M_bind, mret, M_ret.
  simpl. rewrite Hnone. split; reflexivity.
Qed.

(** C2: whenever no handler matched and a span is active, whatever
    exception is in flight and whatever [req_succeeded] is,
    [process_response] makes exactly three calls: it sets the resource to
    the method followed by [" 404"], sets the status tag to ["404"], and
    finishes the span.  Nothing else is called, and the span handed over
    carries that resource and tag. *)
Theorem unmatched_route_forces_404 self req resp rs w r s st :
  active (tracers w (mw_tracer self)) = (r, s) :: st ->
  let t := mw_tracer self in
  let w' := exec (process_response self req resp None rs) w in
  let s' := mark_finished
              (with_tag STATUS_CODE (TagStr "404")
                 (with_resource (req_method req +:+ " 404") s)) in
  log w' = log w ++ [ev_set_resource r (req_method req +:+ " 404");
                     ev_set_tag r STATUS_CODE (TagStr "404");
                     ev_finish r] /\
  active (tracers w' t) = st /\
  finished (tracers w' t) = finished (tracers w t) ++ [(r, s')] /\
  span_resource s' = Some (req_method req +:+ " 404") /\
  span_tags s' !! STATUS_CODE = Some (TagStr "404") /\
  span_finished s' = true /\
  span_traceback s' = span_traceback s /\
  config_falcon w' = config_falcon w.
Proof.
  intros Hact t w' s'.
  destruct (runs_process_response_unmatched self req resp rs
              (tracers w t) (config_falcon w) (exc_info w) (log w) r s st Hact
              w eq_refl) as [_ Hview].
  fold w' in Hview. unfold view in Hview. injection Hview as Htr Hc Hx Hl.
  subst t. rewrite Htr, Hl, Hc. cbn [active finished].
  repeat split; try reflexivity.
  subst s'. cbn [mark_finished with_tag span_tags]. apply lookup_insert_eq.
Qed.

(** C3: with a matched resource and an active span, error classification
    runs exactly when an exception is in flight and [req_succeeded] is
    unknown or false.  When it runs and the exception class name contains
    [HTTPNotFound], the status handed on is ["404"] and [set_traceback] is
    not called; when it runs on any other class, the status is ["500"] and
    [set_traceback] is called once, before the metadata is recorded, so
    the span carries the exception.  When it does not run, the status is
    the one parsed from the status line and no traceback is captured. *)
Theorem error_classification self req resp res rs w r s st :
  active (tracers w (mw_tracer self)) = (r, s) :: st ->
  let t := mw_tracer self in
  let c := config_falcon w in
  let hs := default [] (hooks c !! "request") in
  let w' := exec (process_response self req resp (Some res) rs) w in
  let outcome (status : string) (traceback : list Event) (s0 : Span) :=
    log w' = log w ++ traceback
               ++ [ev_set_http_meta r (response_meta req resp (Some status))]
               ++ hook_events "request" hs r ++ [ev_finish r] /\
    finished (tracers w' t) =
      finished (tracers w t) ++
        [(r, mark_finished
               (after_hooks hs req resp
                  (set_http_meta s0 c (response_meta req resp (Some status)))))] in
  match exc_info w, rs with
  | Some e, None | Some e, Some false =>
      if str_contains "HTTPNotFound" (err_name e)
      then outcome "404" [] s
      else outcome "500" [ev_set_traceback r] (with_traceback (Some e) s)
  | _, _ => outcome (partition " " (resp_status resp)).1.1 [] s
  end.
Proof.
  intros Hact t c hs w' outcome.
  assert (Hv : view t w = mkView (tracers w t) c (exc_info w) (log w)) by reflexivity.
  revert Hv. generalize (exc_info w). intros x Hv.
  pose proof (runs_process_response_matched self req resp res rs
                (tracers w t) c x (log w) r s st Hact) as Hm.
  cbn zeta in Hm. unfold _is_404 in Hm.
  assert (Hout : forall status tb s0 tr',
    view t w' = mkView tr' c x (log w ++ tb
                  ++ [ev_set_http_meta r (response_meta req resp (Some status))]
                  ++ hook_events "request" hs r ++ [ev_finish r]) ->
    finished tr' = finished (tracers w t) ++
        [(r, mark_finished
               (after_hooks hs req resp
                  (set_http_meta s0 c (response_meta req resp (Some status)))))] ->
    outcome status tb s0).
  { intros status tb s0 tr' Hview Hfin. unfold view in Hview.
    injection Hview as Htr _ _ Hl. subst outcome. cbn beta.
    rewrite Hl, Htr. split; [reflexivity | exact Hfin]. }
  destruct x as [e |]; [destruct rs as [[|] |] |].
  - destruct (Hm w Hv) as [_ Hview]. eapply Hout; [exact Hview | reflexivity].
  - destruct (str_contains "HTTPNotFound" (err_name e)); cbn [negb] in Hm;
      destruct (Hm w Hv) as [_ Hview]; (eapply Hout; [exact Hview | reflexivity]).
  - destruct (str_contains "HTTPNotFound" (err_name e)); cbn [negb] in Hm;
      destruct (Hm w Hv) as [_ Hview]; (eapply Hout; [exact Hview | reflexivity]).
  - destruct (Hm w Hv) as [_ Hview]. eapply Hout; [exact Hview | reflexivity].
Qed.

(** C7: on the matched path the callbacks registered for ["request"] are
    invoked in their registration order after everything else and before
    the single, final call of [finish]; no [finish] precedes them, and the
    span that is handed over is the one the callbacks have, in that order,
    mutated.  Registering a callback appends it to the sequence. *)
Theorem hooks_run_before_finish self req resp res rs w r s st :
  active (tracers w (mw_tracer self)) = (r, s) :: st ->
  let t := mw_tracer self in
  let c := config_falcon w in
  let hs := default [] (hooks c !! "request") in
  let w' := exec (process_response self req resp (Some res) rs) w in
  (exists before s1,
     log w' = log w ++ before ++ hook_events "request" hs r ++ [ev_finish r] /\
     finish_calls before = [] /\
     finished (tracers w' t) =
       finished (tracers w t) ++ [(r, mark_finished (after_hooks hs req resp s1))]) /\
  (forall h, default [] (hooks (register "request" h c) !! "request") = hs ++ [h]).
Proof.
  intros Hact t c hs w'. split.
  - destruct (runs_process_response_matched_ex self req resp res rs
                (tracers w t) c (exc_info w) (log w) r s st Hact)
      as (status & tb & Hm).
    destruct (Hm w eq_refl) as [_ Hview].
    fold w' in Hview. unfold view in Hview. injection Hview as Htr _ _ Hl.
    exists ((if tb then [ev_set_traceback r] else [])
              ++ [ev_set_http_meta r (response_meta req resp (Some status))]).
    eexists. subst t. rewrite Htr, Hl. cbn [finished].
    split; [by rewrite <- !app_assoc |].
    split; [by destruct tb | reflexivity].
  - intros h. unfold register; cbn [hooks]. by rewrite lookup_insert_eq.
Qed.

(** C8: over one request, from [process_request] through
    [process_response], exactly one span is created and [finish] is called
    exactly once, on that span, whether or not a handler matched and
    whatever the responder raised. *)
Theorem finish_called_exactly_once self req resp ores raised rs w :
  let w' := exec (lifecycle self req resp ores raised rs) w in
  exists r new,
    log w' = log w ++ new /\
    trace_calls new = [r] /\
    finish_calls new = [r].
Proof.
  intros w'.
  destruct (lifecycle_view self req resp ores raised rs w)
    as (r & new & tr' & Hview & Ht & Hf & _).
  exists r, new. apply (f_equal v_log) in Hview.
  rewrite view_log in Hview. cbn [v_log] in Hview.
  split; [exact Hview | split; assumption].
Qed.

(** C4: the header dictionary handed to the context adapter by
    [process_request] has lower-cased keys: looking a name up in it finds
    the last header whose lower-cased name is that name.  A request whose
    headers are already that lower-cased dictionary produces the same
    dictionary, the same adapter call with the same result, and the same
    span: the two runs differ only in the raw headers recorded afterwards
    by [set_http_meta]. *)
Theorem header_extraction_is_case_insensitive self req resp w :
  let lowered := with_headers (lowercase_keys (req_headers req)) req in
  let t := mw_tracer self in
  lowercase_keys (req_headers lowered) = lowercase_keys (req_headers req) /\
  (forall name, dict_get name (lowercase_keys (req_headers req)) =
                  lookup_folded lower name (req_headers req)) /\
  call_activate_distributed_headers t (lowercase_keys (req_headers lowered)) w =
    call_activate_distributed_headers t (lowercase_keys (req_headers req)) w /\
  exists r calls,
    log (exec (process_request self req resp) w) =
      log w ++ ev_activate_distributed_headers t (config_falcon w)
                 (lowercase_keys (req_headers req))
            :: calls ++ [ev_set_http_meta r (request_meta req)] /\
    log (exec (process_request self lowered resp) w) =
      log w ++ ev_activate_distributed_headers t (config_falcon w)
                 (lowercase_keys (req_headers req))
            :: calls ++ [ev_set_http_meta r (request_meta lowered)].
Proof.
  intros lowered t.
  assert (Hidem : lowercase_keys (req_headers lowered) = lowercase_keys (req_headers req))
    by apply lowercase_keys_idem.
  split; [exact Hidem |].
  split; [intros name; apply dict_get_lowercase_keys |].
  split; [by rewrite Hidem |].
  destruct (runs_process_request self req resp (tracers w t) (config_falcon w)
              (exc_info w) (log w)) as [s1 Hreq].
  destruct (runs_process_request self lowered resp (tracers w t) (config_falcon w)
              (exc_info w) (log w)) as [s2 Hlow].
  cbn zeta in Hreq, Hlow. rewrite Hidem in Hlow.
  destruct (Hreq w eq_refl) as [_ Hv1]. destruct (Hlow w eq_refl) as [_ Hv2].
  apply (f_equal v_log) in Hv1, Hv2. rewrite view_log in Hv1, Hv2.
  cbn [v_log] in Hv1, Hv2.
  eexists _, [_; _; _; _; _]. split; [exact Hv1 | exact Hv2].
Qed.

(** C10: constructing a middleware with [distributed_tracing] set writes
    the value into the process-wide [config.falcon]; the instance itself
    stores only the tracer and the service.  The value stays there through
    every later request of any middleware instance, each of which hands
    that configuration to the context adapter.  Constructing with [None]
    leaves the world as it was. *)
Theorem init_sets_process_wide_config tracer service v w :
  let w1 := exec (__init__ tracer service (Some v)) w in
  settings (config_falcon w1) !! "distributed_tracing" = Some v /\
  eval (__init__ tracer service (Some v)) w = eval (__init__ tracer service None) w /\
  (forall other req resp ores raised rs,
     let w2 := exec (lifecycle other req resp ores raised rs) w1 in
     config_falcon w2 = config_falcon w1 /\
     exists new,
       log w2 = log w1 ++ new /\
       activate_calls new = [(config_falcon w1, lowercase_keys (req_headers req))]) /\
  exec (__init__ tracer service None) w = w.
Proof.
  intros w1. split; [| split; [| split]].
  - subst w1. unfold exec, __init__, mbind, M_bind, get_config, put_config; cbn.
    apply lookup_insert_eq.
  - reflexivity.
  - intros other req resp ores raised rs w2. subst w2.
    destruct (lifecycle_view other req resp ores raised rs w1)
      as (r & new & tr' & Hview & _ & _ & Hact).
    pose proof (f_equal v_config Hview) as Hc. rewrite view_config in Hc.
    pose proof (f_equal v_log Hview) as Hl. rewrite view_log in Hl.
    cbn [v_config v_log] in Hc, Hl.
    split; [exact Hc | exists new; split; [exact Hl | exact Hact]].
  - reflexivity.
Qed.

End Claims.

(** ** Route *)

Lemma route_of_root_path req p :
  req_root_path req = Some p -> p <> "" -> route_of req = p.
Proof.
  intros Hp Hne. unfold route_of, truthy. rewrite Hp.
  destruct (String.eqb_spec p "") as [E | _]; [by destruct Hne | reflexivity].
Qed.

Lemma route_of_no_root_path req :
  truthy (req_root_path req) = false -> route_of req = req_uri_template req.
Proof. intros Hp. unfold route_of. by rewrite Hp. Qed.

(** C1: with root path ["/api"] and URI template ["/users/{id}"] the route
    handed to [set_http_meta] by [process_response] is ["/api"]: the
    template is dropped, where the concatenation would be
    ["/api/users/{id}"]. *)
Theorem route_drops_uri_template :
  req_root_path sample_request = Some "/api" /\
  req_uri_template sample_request = "/users/{id}" /\
  route_of sample_request = "/api" /\
  route_of sample_request <> "/api" +:+ "/users/{id}" /\
  log (exec (process_response sample_middleware sample_request sample_response
               (Some sample_resource) (Some true))
         (open_world [] None)) =
    [ev_set_http_meta 0
       {| hm_method := None; hm_url := None; hm_query := None;
          hm_request_headers := None;
          hm_status_code := Some "200";
          hm_response_headers := Some [("content-type", "text/plain")];
          hm_route := Some "/api" |};
     ev_finish 0].
Proof.
  split; [reflexivity |]. split; [reflexivity |]. split; [reflexivity |].
  split; [discriminate |]. vm_compute. reflexivity.
Qed.

(** ** Patch and unpatch *)

Lemma patch_idem s : Patch.patch (Patch.patch s) = Patch.patch s.
Proof.
  unfold Patch.patch. destruct s as [[|] [ver |] eps]; reflexivity.
Qed.

Lemma unpatch_idem s : Patch.unpatch (Patch.unpatch s) = Patch.unpatch s.
Proof.
  unfold Patch.unpatch. destruct s as [[|] ver eps]; reflexivity.
Qed.

Lemma iter_patch n s : 1 <= n -> Nat.iter n Patch.patch s = Patch.patch s.
Proof.
  intros Hn. destruct n as [| n]; [lia |]. clear Hn.
  induction n as [| n IH]; [reflexivity |].
  change (Nat.iter (S (S n)) Patch.patch s)
    with (Patch.patch (Nat.iter (S n) Patch.patch s)).
  rewrite IH. apply patch_idem.
Qed.

Lemma restore_traced (eps : gmap string Patch.Callable) :
  Patch.restore <$> (Patch.Traced <$> eps) = eps.
Proof.
  rewrite <- map_fmap_compose.
  change (Patch.restore ∘ Patch.Traced) with (@id Patch.Callable).
  apply map_fmap_id.
Qed.

Lemma unpatch_patch s : Patch.patched s = false -> Patch.unpatch (Patch.patch s) = s.
Proof.
  destruct s as [p [ver |] eps]; cbn; intros ->; [| reflexivity].
  unfold Patch.patch, Patch.unpatch; cbn. by rewrite restore_traced.
Qed.

Lemma unpatch_is_unpatched s : Patch.is_patched (Patch.unpatch s) = false.
Proof. unfold Patch.unpatch, Patch.is_patched. by destruct (Patch.patched s) eqn:E. Qed.

Lemma patch_when_patched s : Patch.patched s = true -> Patch.patch s = s.
Proof. intros Hp. unfold Patch.patch. by rewrite Hp. Qed.

Lemma unpatch_when_unpatched s : Patch.patched s = false -> Patch.unpatch s = s.
Proof. intros Hp. unfold Patch.unpatch. by rewrite Hp. Qed.

Lemma iter_patch_when_patched n s :
  Patch.patched s = true -> Nat.iter n Patch.patch s = s.
Proof.
  intros Hp. induction n as [| n IH]; [reflexivity |].
  change (Nat.iter (S n) Patch.patch s) with (Patch.patch (Nat.iter n Patch.patch s)).
  rewrite IH. by apply patch_when_patched.
Qed.

(** A library that is not installed is left alone by [patch()], however
    often it is called. *)
Lemma iter_patch_without_library n s :
  Patch.version s = None -> Nat.iter n Patch.patch s = s.
Proof.
  intros Hv. induction n as [| n IH]; [reflexivity |].
  change (Nat.iter (S n) Patch.patch s) with (Patch.patch (Nat.iter n Patch.patch s)).
  rewrite IH. unfold Patch.patch.
  rewrite Hv. by destruct (Patch.patched s).
Qed.

(** C9: for the patch registry of a library that is there to be
    instrumented, in whatever state it is, calling [patch()] once or more
    leaves [is_patched()] true and the state exactly as after one call:
    the entry points are wrapped once if they were not wrapped and are left
    alone if they were, so each emits at most one span more per call.
    [unpatch()] after any number of [patch()] calls leaves [is_patched()]
    false and gives back the state the registry had before the first
    [patch()] when it was unpatched then.  [patch()] and [unpatch()] are
    idempotent, and each changes nothing when the state already matches. *)
Theorem patch_is_idempotent_when_installed s ver n :
  Patch.version s = Some ver ->
  1 <= n ->
  Patch.is_patched (Nat.iter n Patch.patch s) = true /\
  Nat.iter n Patch.patch s = Patch.patch s /\
  Patch.entry_points (Nat.iter n Patch.patch s) =
    (if Patch.patched s then Patch.entry_points s
     else Patch.Traced <$> Patch.entry_points s) /\
  Patch.spans_per_call <$> Patch.entry_points (Nat.iter n Patch.patch s) =
    (if Patch.patched s then Patch.spans_per_call <$> Patch.entry_points s
     else (fun c => S (Patch.spans_per_call c)) <$> Patch.entry_points s) /\
  (forall m, Patch.unpatch (Nat.iter m Patch.patch s) =
             if Patch.patched s then Patch.unpatch s else s) /\
  (forall m, Patch.is_patched (Patch.unpatch (Nat.iter m Patch.patch s)) = false) /\
  Patch.patch (Patch.patch s) = Patch.patch s /\
  Patch.unpatch (Patch.unpatch s) = Patch.unpatch s /\
  (if Patch.patched s then Patch.patch s = s else Patch.unpatch s = s).
Proof.
  intros Hver Hn.
  pose proof (iter_patch n s Hn) as Hit.
  assert (Hpatch : Patch.patch s =
            if Patch.patched s then s
            else {| Patch.patched := true; Patch.version := Patch.version s;
                    Patch.entry_points := Patch.Traced <$> Patch.entry_points s |}).
  { unfold Patch.patch. by rewrite Hver. }
  split; [rewrite Hit, Hpatch; by destruct (Patch.patched s) eqn:E |].
  split; [exact Hit |].
  split; [rewrite Hit, Hpatch; by destruct (Patch.patched s) |].
  split.
  { rewrite Hit, Hpatch. destruct (Patch.patched s); [reflexivity |].
    cbn [Patch.entry_points]. by rewrite <- map_fmap_compose. }
  split.
  { intros m. destruct (Patch.patched s) eqn:Hp.
    - by rewrite iter_patch_when_patched.
    - destruct m as [| m]; [by apply unpatch_when_unpatched |].
      rewrite iter_patch by lia. by apply unpatch_patch. }
  split; [intros m; apply unpatch_is_unpatched |].
  split; [apply patch_idem |].
  split; [apply unpatch_idem |].
  destruct (Patch.patched s) eqn:Hp;
    [by apply patch_when_patched | by apply unpatch_when_unpatched].
Qed.

(** ** The theorems at sample inputs *)

Lemma no_active_span_is_ignored_witness :
  eval (current_span 0) (initial_world []) = None /\
  process_resource sample_middleware sample_request sample_response sample_resource
    (initial_world []) = (tt, initial_world []) /\
  process_response sample_middleware sample_request sample_response
    (Some sample_resource) (Some false) (initial_world []) = (tt, initial_world []).
Proof.
  split; [reflexivity |].
  apply (no_active_span_is_ignored (H := default_collaborators)
           sample_middleware sample_request sample_response sample_resource
           (Some sample_resource) (Some false) (initial_world [])).
  reflexivity.
Defined.

Lemma unmatched_route_forces_404_witness :
  active (tracers (open_world [] (Some {| err_name := "ValueError" |})) 0)
    = [(0, sample_span)] /\
  log (exec (process_response sample_middleware sample_request sample_response
               None (Some false))
         (open_world [] (Some {| err_name := "ValueError" |}))) =
    [ev_set_resource 0 "GET 404"; ev_set_tag 0 "http.status_code" (TagStr "404");
     ev_finish 0].
Proof.
  split; [reflexivity |].
  exact (proj1 (unmatched_route_forces_404 (H := default_collaborators)
                  sample_middleware sample_request sample_response (Some false)
                  (open_world [] (Some {| err_name := "ValueError" |}))
                  0 sample_span [] eq_refl)).
Defined.

Lemma error_classification_witness :
  active (tracers (open_world [] (Some {| err_name := "ValueError" |})) 0)
    = [(0, sample_span)] /\
  log (exec (process_response sample_middleware sample_request sample_response
               (Some sample_resource) (Some false))
         (open_world [] (Some {| err_name := "ValueError" |}))) =
    [ev_set_traceback 0;
     ev_set_http_meta 0 (response_meta sample_request sample_response (Some "500"));
     ev_finish 0].
Proof.
  split; [reflexivity |].
  exact (proj1 (error_classification (H := default_collaborators)
                  sample_middleware sample_request sample_response sample_resource
                  (Some false)
                  (open_world [] (Some {| err_name := "ValueError" |}))
                  0 sample_span [] eq_refl)).
Defined.

Lemma hooks_run_before_finish_witness :
  active (tracers (open_world [rename_hook; tag_hook] None) 0) = [(0, sample_span)] /\
  exists before s1,
    log (exec (process_response sample_middleware sample_request sample_response
                 (Some sample_resource) (Some true))
           (open_world [rename_hook; tag_hook] None)) =
      before ++ [ev_hook "request" "rename" 0; ev_hook "request" "tag" 0; ev_finish 0] /\
    finish_calls before = [] /\
    finished (tracers
                (exec (process_response sample_middleware sample_request sample_response
                         (Some sample_resource) (Some true))
                   (open_world [rename_hook; tag_hook] None)) 0) =
      [(0, mark_finished
             (with_tag "team" (TagStr "web") (with_resource "GET renamed" s1)))].
Proof.
  split; [reflexivity |].
  exact (proj1 (hooks_run_before_finish (H := default_collaborators)
                  sample_middleware sample_request sample_response sample_resource
                  (Some true) (open_world [rename_hook; tag_hook] None)
                  0 sample_span [] eq_refl)).
Defined.

Lemma patch_is_idempotent_when_installed_witness :
  Patch.version Patch.asyncpg_installed = Some "0.27.0" /\
  1 <= 2 /\
  Patch.is_patched (Nat.iter 2 Patch.patch Patch.asyncpg_installed) = true /\
  Nat.iter 2 Patch.patch Patch.asyncpg_installed = Patch.patch Patch.asyncpg_installed.
Proof.
  split; [reflexivity |]. split; [lia |].
  pose proof (patch_is_idempotent_when_installed Patch.asyncpg_installed "0.27.0" 2
                eq_refl ltac:(lia)) as Hw.
  split; [exact (proj1 Hw) | exact (proj1 (proj2 Hw))].
Defined.

Lemma status_code_is_prefix_before_first_space_witness :
  active (tracers (open_world [] None) 0) = [(0, sample_span)] /\
  (exc_info (open_world [] None) = None \/ Some true = Some true) /\
  exists code,
    log (exec (process_response sample_middleware sample_request sample_response
                 (Some sample_resource) (Some true))
           (open_world [] None)) =
      [ev_set_http_meta 0
         {| hm_method := None; hm_url := None; hm_query := None;
            hm_request_headers := None;
            hm_status_code := Some code;
            hm_response_headers := Some [("content-type", "text/plain")];
            hm_route := Some "/api" |};
       ev_finish 0] /\
    str_contains " " code = false /\
    exists rest, "200 OK" = code +:+ " " +:+ rest.
Proof.
  split; [reflexivity |]. split; [left; reflexivity |].
  exact (status_code_is_prefix_before_first_space (H := default_collaborators)
           sample_middleware sample_request sample_response sample_resource
           (Some true) (open_world [] None) 0 sample_span []
           eq_refl (or_introl eq_refl)).
Defined.

(** * Further properties of the middleware *)

(** ** Substring tests *)

Lemma starts_with_spec p s :
  starts_with p s = true <-> exists post, s = p +:+ post.
Proof.
  revert s. induction p as [| a p IH]; intros s.
  - split; [intros _; by exists s | reflexivity].
  - destruct s as [| b s]; cbn [starts_with].
    + split; [discriminate | intros [post Hpost]; discriminate].
    + rewrite andb_true_iff, IH. split.
      * intros [Hab [post ->]]. apply Ascii.eqb_eq in Hab as ->. by exists post.
      * intros [post Hpost]. cbn in Hpost. injection Hpost as -> ->.
        split; [apply Ascii.eqb_refl | by exists post].
Qed.

Lemma str_contains_spec needle hay :
  str_contains needle hay = true <-> exists pre post, hay = pre +:+ needle +:+ post.
Proof.
  split.
  - induction hay as [| c hay IH]; cbn [str_contains].
    + intros Hs. apply starts_with_spec in Hs as [post Hpost]. by exists "", post.
    + intros Hs. apply orb_true_iff in Hs as [Hs | Hs].
      * apply starts_with_spec in Hs as [post Hpost]. by exists "", post.
      * destruct (IH Hs) as (pre & post & ->). by exists (String c pre), post.
  - intros (pre & post & ->). induction pre as [| c pre IH].
    + cbn [String.append].
      assert (Hs : starts_with needle (needle +:+ post) = true)
        by (apply starts_with_spec; by exists post).
      remember (needle +:+ post) as h eqn:Hh. clear Hh.
      destruct h as [| b h]; [exact Hs |].
      change (starts_with needle (String b h) || str_contains needle h = true).
      rewrite Hs. reflexivity.
    + change (starts_with needle (String c (pre +:+ needle +:+ post))
              || str_contains needle (pre +:+ needle +:+ post) = true).
      rewrite IH. apply orb_true_r.
Qed.

Lemma append_inv_head (p a b : string) : p +:+ a = p +:+ b -> a = b.
Proof.
  induction p as [| c p IH]; cbn [String.append]; [done |].
  intros Heq. injection Heq as Heq. by apply IH.
Qed.

(** X5: an exception class is classified as not-found exactly when its
    name contains [HTTPNotFound] somewhere: the name is some prefix, then
    that marker, then some suffix.  The test is on the spelling of the name
    and is case-sensitive. *)
Theorem is_404_iff_name_contains_marker (err_type : ErrType) :
  _is_404 err_type = true <->
  exists pre post, err_name err_type = pre +:+ "HTTPNotFound" +:+ post.
Proof. unfold _is_404. apply str_contains_spec. Qed.

(** ** The lower-cased header dictionary *)

Lemma keys_map_lower (items : list (string * string)) :
  keys (map (fun kv => (lower kv.1, kv.2)) items) = map lower (keys items).
Proof.
  unfold keys. induction items as [| [k v] items IH]; [reflexivity |].
  cbn. by rewrite IH.
Qed.

Lemma elem_of_keys_foldl_dict_set k items acc :
  k ∈ keys (foldl (fun d kv => dict_set kv.1 kv.2 d) acc items) <->
  k ∈ keys acc \/ k ∈ keys items.
Proof.
  revert acc. induction items as [| [k' v'] items IH]; intros acc.
  - cbn. split; [by left | intros [Hk | Hk]; [exact Hk | by apply elem_of_nil in Hk]].
  - cbn [foldl fst snd]. rewrite IH, keys_dict_set.
    change (keys ((k', v') :: items)) with (k' :: keys items).
    rewrite elem_of_cons.
    destruct (decide (k' ∈ keys acc)) as [Hin | Hin].
    + split; [intros [Hk | Hk]; [by left | right; by right] |].
      intros [Hk | [-> | Hk]]; [by left | by left | by right].
    + rewrite elem_of_app, list_elem_of_singleton. tauto.
Qed.

Lemma dict_get_None k d : dict_get k d = None <-> k ∉ keys d.
Proof.
  induction d as [| [k' v'] d IH].
  - split; [intros _ Hk; by apply elem_of_nil in Hk | reflexivity].
  - unfold keys in *. cbn [dict_get map fst]. rewrite not_elem_of_cons.
    destruct (String.eqb_spec k' k) as [-> | Hne].
    + split; [discriminate | intros [Hk _]; by destruct Hk].
    + rewrite IH. split; [intros Hk; split; [congruence | exact Hk] | intros [_ Hk]; exact Hk].
Qed.

Lemma keys_lowercase_keys k headers :
  k ∈ keys (lowercase_keys headers) <-> k ∈ map lower (keys headers).
Proof.
  unfold lowercase_keys, dict_of_items, iteritems.
  rewrite elem_of_keys_foldl_dict_set, keys_map_lower.
  split; [intros [Hk | Hk]; [by apply elem_of_nil in Hk | exact Hk] | by right].
Qed.

(** X6: the dictionary that [process_request] hands to the context
    adapter never has two entries for one name, has only lower-case names,
    and its names are exactly the lower-cased names of the request's
    headers: none is invented and none is lost. *)
Theorem lowercase_keys_invariant (headers : pydict) :
  NoDup (keys (lowercase_keys headers)) /\
  Forall (fun k => lower k = k) (keys (lowercase_keys headers)) /\
  (forall k, k ∈ keys (lowercase_keys headers) <-> k ∈ map lower (keys headers)).
Proof.
  destruct (foldl_dict_set_invariant (fun k => lower k = k)
              (map (fun kv => (lower kv.1, kv.2)) headers) [])
    as [Hnd Hfix]; [constructor | constructor | apply keys_folded, lower_idem |].
  split; [exact Hnd |]. split; [exact Hfix |].
  intros k. apply keys_lowercase_keys.
Qed.

(** X7: when no two header names are equal up to case, lower-casing the
    keys loses nothing: the dictionary is the header list itself, in the
    same order, with each name lower-cased and each value untouched. *)
Theorem lowercase_keys_without_collision (headers : pydict) :
  NoDup (map lower (keys headers)) ->
  lowercase_keys headers = map (fun kv => (lower kv.1, kv.2)) headers.
Proof.
  intros Hnd. unfold lowercase_keys, dict_of_items, iteritems.
  rewrite foldl_dict_set_distinct; [reflexivity |].
  cbn [app]. by rewrite keys_map_lower.
Qed.

(** X8: a lookup in the dictionary handed to the adapter succeeds exactly
    for the lower-cased names of the request's headers, whatever the case
    the framework delivered them in. *)
Theorem lowercase_keys_lookup_succeeds_iff (headers : pydict) (name : string) :
  is_Some (dict_get name (lowercase_keys headers)) <-> name ∈ map lower (keys headers).
Proof.
  rewrite <- keys_lowercase_keys, <- not_eq_None_Some, dict_get_None.
  split; [apply dec_stable | intros Hk Hn; by apply Hn].
Qed.

(** X9: a name that is not already lower-case is never found in the
    dictionary handed to the adapter, even when the request carried a
    header spelled exactly that way. *)
Theorem lowercase_keys_lookup_misses_upper_case (headers : pydict) (name : string) :
  lower name <> name ->
  dict_get name (lowercase_keys headers) = None.
Proof.
  intros Hname. apply dict_get_None. rewrite keys_lowercase_keys.
  intros Hin. apply list_elem_of_fmap in Hin as (k & -> & _).
  apply Hname, lower_idem.
Qed.

(** ** The callbacks one by one *)

Lemma eval_current_span t w :
  eval (current_span t) w = fst <$> head (active (tracers w t)).
Proof. reflexivity. Qed.

Section MoreFacts.
Context `{Collaborators}.

(** X1: [process_request] calls the context adapter first, on the tracer
    as it found it and with the lower-cased headers, then opens exactly one
    span under the instance's service with type web, tags it, and hands
    [set_http_meta] the method, URL, query string and the headers as the
    framework delivered them, not lower-cased.  The new span is the
    tracer's current span afterwards; nothing is finished and the
    configuration is only read. *)
Theorem process_request_opens_one_span self req resp w :
  let t := mw_tracer self in
  let c := config_falcon w in
  let headers := lowercase_keys (req_headers req) in
  let tr0 := activate_distributed_headers (tracers w t) c headers in
  let r := next_ref tr0 in
  let w' := exec (process_request self req resp) w in
  log w' = log w ++
    [ev_activate_distributed_headers t c headers;
     ev_trace t r (schematize_url_operation "falcon.request" "http" INBOUND)
       (mw_service self) SpanTypes_WEB;
     ev_set_tag_str r COMPONENT (integration_name c);
     ev_set_tag_str r SPAN_KIND SpanKind_SERVER;
     ev_set_tag r SPAN_MEASURED_KEY TagNone;
     ev_set_tag r ANALYTICS_SAMPLE_RATE_KEY (get_analytics_sample_rate c true);
     ev_set_http_meta r
       {| hm_method := Some (req_method req);
          hm_url := Some (req_url req);
          hm_query := Some (req_query_string req);
          hm_request_headers := Some (req_headers req);
          hm_status_code := None;
          hm_response_headers := None;
          hm_route := None |}] /\
  eval (current_span t) w' = Some r /\
  (exists s, active (tracers w' t) = (r, s) :: active tr0) /\
  finished (tracers w' t) = finished tr0 /\
  config_falcon w' = c /\
  exc_info w' = exc_info w.
Proof.
  intros t c headers tr0 r w'. subst w'.
  destruct (runs_process_request self req resp (tracers w t) c (exc_info w) (log w))
    as [s Hreq].
  destruct (Hreq w eq_refl) as [_ Hv]. fold t in Hv.
  pose proof (f_equal v_log Hv) as Hl. rewrite view_log in Hl.
  pose proof (f_equal v_tracer Hv) as Htr. rewrite view_tracer in Htr.
  pose proof (f_equal v_config Hv) as Hc. rewrite view_config in Hc.
  pose proof (f_equal v_exc Hv) as Hx. rewrite view_exc in Hx.
  cbn [v_log v_tracer v_config v_exc] in Hl, Htr, Hc, Hx.
  rewrite eval_current_span, Htr. cbn [active finished].
  split; [exact Hl |]. split; [reflexivity |]. split; [by exists s |].
  split; [reflexivity |]. split; [exact Hc | exact Hx].
Qed.

(** X2: on an active span [process_resource] changes one thing, the
    span's resource, which becomes the method, a space, and the handler's
    module and class name joined by a dot.  The span's tags, error state
    and parent, the spans below it, the finished spans and the
    configuration stay as they were, and the span is not finished. *)
Theorem process_resource_names_the_span self req resp res w r s st :
  active (tracers w (mw_tracer self)) = (r, s) :: st ->
  let t := mw_tracer self in
  let name := req_method req +:+ " " +:+ res_module res +:+ "." +:+ res_class_name res in
  let w' := exec (process_resource self req resp res) w in
  log w' = log w ++ [ev_set_resource r name] /\
  (exists s',
     active (tracers w' t) = (r, s') :: st /\
     span_resource s' = Some name /\
     span_tags s' = span_tags s /\
     span_error s' = span_error s /\
     span_traceback s' = span_traceback s /\
     span_parent s' = span_parent s /\
     span_service s' = span_service s /\
     span_finished s' = span_finished s) /\
  finished (tracers w' t) = finished (tracers w t) /\
  config_falcon w' = config_falcon w.
Proof.
  intros Hact t name w'. subst w'.
  destruct (runs_process_resource self req resp res (tracers w t) (config_falcon w)
              (exc_info w) (log w) r s st Hact w eq_refl) as [_ Hv].
  fold t in Hv.
  pose proof (f_equal v_log Hv) as Hl. rewrite view_log in Hl.
  pose proof (f_equal v_tracer Hv) as Htr. rewrite view_tracer in Htr.
  pose proof (f_equal v_config Hv) as Hc. rewrite view_config in Hc.
  cbn [v_log v_tracer v_config] in Hl, Htr, Hc.
  rewrite Htr. cbn [active finished].
  split; [exact Hl |]. split; [| split; [reflexivity | exact Hc]].
  eexists. split; [reflexivity |]. by repeat split.
Qed.

Lemma name_is_not_404 res : _name res <> "404".
Proof.
  intros Heq.
  assert (Hdot : str_contains "." (_name res) = true).
  { apply str_contains_spec. by exists (res_module res), (res_class_name res). }
  rewrite Heq in Hdot. discriminate.
Qed.

(** X4: the resource name given to an unmatched route can never be the
    resource name of a handler for the same method: a handler's name always
    contains the dot between module and class, and ["404"] has none.  So
    the name [METHOD 404] identifies unmatched routes without ambiguity. *)
Theorem unmatched_resource_is_no_handler_name self req resp res rs w r s st :
  active (tracers w (mw_tracer self)) = (r, s) :: st ->
  exists matched unmatched rest,
    log (exec (process_resource self req resp res) w) =
      log w ++ [ev_set_resource r matched] /\
    log (exec (process_response self req resp None rs) w) =
      log w ++ ev_set_resource r unmatched :: rest /\
    matched <> unmatched.
Proof.
  intros Hact.
  destruct (runs_process_resource self req resp res _ (config_falcon w)
              (exc_info w) (log w) r s st Hact w eq_refl) as [_ Hv1].
  destruct (runs_process_response_unmatched self req resp rs _ (config_falcon w)
              (exc_info w) (log w) r s st Hact w eq_refl) as [_ Hv2].
  apply (f_equal v_log) in Hv1, Hv2. rewrite view_log in Hv1, Hv2.
  cbn [v_log] in Hv1, Hv2.
  eexists _, _, _. split; [exact Hv1 |]. split; [exact Hv2 |].
  intros Heq. apply append_inv_head in Heq.
  cbn [String.append] in Heq. injection Heq as Heq.
  by apply (name_is_not_404 res).
Qed.


(** X10: the setting written by the constructor is shared and the last
    writer wins: after a middleware is constructed with a value and a second
    one with another value, the second value is the one in force for both;
    a second one constructed with [None] leaves the first value in force.
    Construction changes nothing else: the other settings, the registered
    hooks, the integration name, every tracer, the exception state and the
    log of calls are as before. *)
Theorem init_last_writer_wins tracer1 service1 v1 tracer2 service2 d2 w :
  let w1 := exec (__init__ tracer1 service1 (Some v1)) w in
  let w2 := exec (__init__ tracer2 service2 d2) w1 in
  settings (config_falcon w2) !! "distributed_tracing" = Some (default v1 d2) /\
  delete "distributed_tracing" (settings (config_falcon w2)) =
    delete "distributed_tracing" (settings (config_falcon w)) /\
  hooks (config_falcon w2) = hooks (config_falcon w) /\
  integration_name (config_falcon w2) = integration_name (config_falcon w) /\
  tracers w2 = tracers w /\
  exc_info w2 = exc_info w /\
  log w2 = log w.
Proof.
  intros w1 w2. subst w1 w2.
  destruct d2 as [v2 |];
    unfold exec, __init__, mbind, M_bind, mret, M_ret, get_config, put_config;
    cbn [fst snd config_falcon settings hooks integration_name tracers exc_info log].
  - rewrite lookup_insert_eq, !delete_insert_eq. by repeat split.
  - rewrite lookup_insert_eq, delete_insert_eq. by repeat split.
Qed.

(** X11: the service given to the constructor, or the schematized name of
    ["falcon"] when none is given, is the service under which every span of
    that instance is opened, on the tracer given to the constructor.  The
    instance does not depend on the [distributed_tracing] argument nor on
    the state it was constructed in. *)
Theorem init_service_names_every_span tracer service dt w0 req resp w :
  let self := eval (__init__ tracer service dt) w0 in
  let svc := default (schematize_service_name "falcon") service in
  self = {| mw_tracer := tracer; mw_service := svc |} /\
  trace_calls (log w) ++
    [next_ref (activate_distributed_headers (tracers w tracer) (config_falcon w)
                 (lowercase_keys (req_headers req)))] =
    trace_calls (log (exec (process_request self req resp) w)) /\
  exists r rest,
    log (exec (process_request self req resp) w) =
      log w ++ ev_activate_distributed_headers tracer (config_falcon w)
                 (lowercase_keys (req_headers req))
            :: ev_trace tracer r
                 (schematize_url_operation "falcon.request" "http" INBOUND)
                 svc SpanTypes_WEB
            :: rest.
Proof.
  intros self svc.
  assert (Hself : self = {| mw_tracer := tracer; mw_service := svc |}).
  { subst self svc. destruct service, dt; reflexivity. }
  split; [exact Hself |]. rewrite Hself. clear Hself self.
  destruct (runs_process_request {| mw_tracer := tracer; mw_service := svc |} req resp
              (tracers w tracer) (config_falcon w) (exc_info w) (log w)) as [s Hreq].
  destruct (Hreq w eq_refl) as [_ Hv].
  apply (f_equal v_log) in Hv. rewrite view_log in Hv. cbn [v_log] in Hv.
  split; [rewrite Hv, trace_calls_app; reflexivity |].
  eexists _, _. exact Hv.
Qed.

Lemma process_response_without_span self req resp ores rs w :
  active (tracers w (mw_tracer self)) = [] ->
  exec (process_response self req resp ores rs) w = w.
Proof.
  intros Hact.
  unfold exec, process_response, current_span, get_tracer, mbind, M_bind, mret, M_ret.
  cbn [fst snd]. rewrite Hact. reflexivity.
Qed.

(** X13: in any state and on every branch, [process_response] opens no
    span and never calls the context adapter, and it calls [finish] at most
    once, only on the span that was current when it was entered. *)
Theorem process_response_finishes_only_the_current_span self req resp ores rs w :
  exists new,
    log (exec (process_response self req resp ores rs) w) = log w ++ new /\
    trace_calls new = [] /\
    activate_calls new = [] /\
    (finish_calls new = [] \/
     exists r, eval (current_span (mw_tracer self)) w = Some r /\ finish_calls new = [r]).
Proof.
  destruct (active (tracers w (mw_tracer self))) as [| [r s] st] eqn:Hact.
  - exists []. rewrite (process_response_without_span _ _ _ _ _ _ Hact), app_nil_r.
    split; [reflexivity |]. split; [reflexivity |]. split; [reflexivity | by left].
  - assert (Hcur : eval (current_span (mw_tracer self)) w = Some r)
      by (rewrite eval_current_span, Hact; reflexivity).
    destruct ores as [res |].
    + destruct (runs_process_response_matched_ex self req resp res rs _ (config_falcon w)
                  (exc_info w) (log w) r s st Hact) as (status & tb & Hm).
      destruct (Hm w eq_refl) as [_ Hv].
      apply (f_equal v_log) in Hv. rewrite view_log in Hv. cbn [v_log] in Hv.
      eexists. split; [exact Hv |].
      rewrite !trace_calls_app, !activate_calls_app, !finish_calls_app.
      rewrite trace_calls_hook_events, activate_calls_hook_events,
        finish_calls_hook_events.
      split; [by destruct tb |]. split; [by destruct tb |].
      right. exists r. split; [exact Hcur | by destruct tb].
    + destruct (runs_process_response_unmatched self req resp rs _ (config_falcon w)
                  (exc_info w) (log w) r s st Hact w eq_refl) as [_ Hv].
      apply (f_equal v_log) in Hv. rewrite view_log in Hv. cbn [v_log] in Hv.
      eexists. split; [exact Hv |].
      split; [reflexivity |]. split; [reflexivity |].
      right. exists r. split; [exact Hcur | reflexivity].
Qed.

End MoreFacts.

(** ** The further theorems at sample inputs *)

Lemma process_resource_names_the_span_witness :
  active (tracers (open_world [] None) 0) = [(0, sample_span)] /\
  log (exec (process_resource sample_middleware sample_request sample_response
               sample_resource)
         (open_world [] None)) =
    [ev_set_resource 0 "GET app.resources.UserResource"].
Proof.
  split; [reflexivity |].
  exact (proj1 (process_resource_names_the_span
                  sample_middleware sample_request sample_response sample_resource
                  (open_world [] None) 0 sample_span [] eq_refl)).
Defined.

Lemma unmatched_resource_is_no_handler_name_witness :
  active (tracers (open_world [] None) 0) = [(0, sample_span)] /\
  exists matched unmatched rest,
    log (exec (process_resource sample_middleware sample_request sample_response
                 sample_resource)
           (open_world [] None)) = [ev_set_resource 0 matched] /\
    log (exec (process_response sample_middleware sample_request sample_response
                 None None)
           (open_world [] None)) = ev_set_resource 0 unmatched :: rest /\
    matched <> unmatched.
Proof.
  split; [reflexivity |].
  exact (unmatched_resource_is_no_handler_name (H := default_collaborators)
           sample_middleware sample_request sample_response sample_resource None
           (open_world [] None) 0 sample_span [] eq_refl).
Defined.

Lemma lowercase_keys_without_collision_witness :
  NoDup (map lower (keys [("Content-Type", "text/plain"); ("ACCEPT", "*/*")])) /\
  lowercase_keys [("Content-Type", "text/plain"); ("ACCEPT", "*/*")] =
    [("content-type", "text/plain"); ("accept", "*/*")].
Proof.
  assert (Hnd : NoDup (map lower (keys [("Content-Type", "text/plain"); ("ACCEPT", "*/*")]))).
  { change (NoDup ["content-type"; "accept"]).
    apply NoDup_cons. split; [| apply NoDup_singleton].
    rewrite list_elem_of_singleton. discriminate. }
  split; [exact Hnd |].
  exact (lowercase_keys_without_collision
           [("Content-Type", "text/plain"); ("ACCEPT", "*/*")] Hnd).
Defined.

Lemma lowercase_keys_lookup_misses_upper_case_witness :
  lower "X-Datadog-Trace-Id" <> "X-Datadog-Trace-Id" /\
  dict_get "X-Datadog-Trace-Id" (lowercase_keys (req_headers sample_request)) = None.
Proof.
  assert (Hne : lower "X-Datadog-Trace-Id" <> "X-Datadog-Trace-Id") by discriminate.
  split; [exact Hne |].
  exact (lowercase_keys_lookup_misses_upper_case (req_headers sample_request)
           "X-Datadog-Trace-Id" Hne).
Defined.
